(** * ImageToggleGallery: a mutually-exclusive toggle gallery

    Shallow embedding of [LeetCodeTraining/image_toggle_gallery.py].

    The controller keeps three Python dictionaries ([image_sets],
    [_buttons], [_outputs]) and a widget tree.  Python dictionaries
    iterate in insertion order, so they are modelled as association
    lists with the exact insertion/replacement discipline of [dict]
    (a list stands for a dictionary when its keys are pairwise distinct,
    which every operation below preserves).
    Widgets are mutable objects; the object stored under a key of
    [_buttons] / [_outputs] is the very object placed in the widget
    tree by [refresh], so the tree refers to widgets by that key and
    a mutation through the dictionary is visible in the tree.

    The handlers are modelled as they run in the kernel of a notebook,
    which is where the host delivers widget events.  There the context
    manager of an output area, on an exception raised in the body of
    [with out:], shows the traceback in that area and suppresses the
    exception; an exception raised by the [with] expression itself (the
    lookup of the area) propagates.

    Calls to the notebook host ([clear_output()], [display(HTML(..))],
    the traceback shown for a suppressed exception) are recorded, in
    order, in [host_calls].  What [HTML(s)] turns a string into depends
    on the files and the network of the session: they are the
    parameter [Host]. *)

From Stdlib Require Import Ascii List String Bool Lia.
Import ListNotations.
Open Scope string_scope.
Open Scope list_scope.

Set Implicit Arguments.

(* Labels such as ["Show " ++ name] stay as written under [simpl]. *)
Arguments String.append : simpl never.

(** ** Python [dict] with insertion order *)

Section Dict.
Variable V : Type.

Definition dict := list (string * V).

(** [d.keys()] / iteration order of [for k in d]. *)
Definition dict_keys (d : dict) : list string := map fst d.

(** [d.get(k)] *)
Fixpoint dict_get (d : dict) (k : string) : option V :=
  match d with
  | [] => None
  | (k', v) :: d' => if String.eqb k k' then Some v else dict_get d' k
  end.

(** [d[k] = v]: an existing key keeps its position, a new key goes last. *)
Fixpoint dict_set (d : dict) (k : string) (v : V) : dict :=
  match d with
  | [] => [(k, v)]
  | (k', v') :: d' =>
      if String.eqb k k' then (k', v) :: d' else (k', v') :: dict_set d' k v
  end.

(** [d.pop(k, None)], result discarded. *)
Fixpoint dict_pop (d : dict) (k : string) : dict :=
  match d with
  | [] => []
  | (k', v') :: d' =>
      if String.eqb k k' then d' else (k', v') :: dict_pop d' k
  end.

(** In-place mutation of the object stored under [k] (the dictionary
    itself is not written: keys and their order stay as they are). *)
Fixpoint dict_mutate (d : dict) (k : string) (f : V -> V) : dict :=
  match d with
  | [] => []
  | (k', v') :: d' =>
      if String.eqb k k' then (k', f v') :: d' else (k', v') :: dict_mutate d' k f
  end.
End Dict.

(** ** Outcome of a handler: it returns, or a [KeyError] escapes. *)

Inductive result (A : Type) : Type :=
| Ok (a : A)
| KeyError (key : string).
Arguments Ok {A} a.
Arguments KeyError {A} key.

Definition bind {A B : Type} (r : result A) (k : A -> result B) : result B :=
  match r with
  | Ok a => k a
  | KeyError key => KeyError key
  end.

Notation "x <- e ;; k" := (bind e (fun x => k))
  (at level 61, e at next level, right associativity).

(** [d[k]] as an expression. *)
Definition getitem {V : Type} (d : dict V) (k : string) : result V :=
  match dict_get d k with
  | Some v => Ok v
  | None => KeyError k
  end.

(** ** The notebook host *)

(** What the session answers to the constructor of [IPython.display.HTML]:
    whether a string names an existing path, the text of that file, and
    the text behind a URL; [None] stands for a load that raises.  The
    answers are taken as fixed for the length of a run. *)
Class Host : Type := mkHost {
  path_exists : string -> bool;
  read_file : string -> option string;
  fetch_url : string -> option string
}.

(** A session without files and without network. *)
Definition offline_host : Host :=
  mkHost (fun _ => false) (fun _ => None) (fun _ => None).

Section Notebook.
Context {host : Host}.

(** [HTML(s)]: a string that starts with "http" is taken as a URL and
    fetched, one that names an existing path is read as a file, any other
    string is the markup itself.  The result is the text the display
    object carries. *)
Definition HTML (s : string) : option string :=
  if String.prefix "http" s then fetch_url s
  else if path_exists s then read_file s
  else Some s.

(** ** Widgets *)

(** The values of the [button_style] trait of a toggle button. *)
Definition button_styles : list string :=
  ["primary"; "success"; "info"; "warning"; "danger"; ""].

Definition lower_ascii (c : ascii) : ascii :=
  let n := nat_of_ascii c in
  if Nat.leb 65 n && Nat.leb n 90 then ascii_of_nat (n + 32) else c.

(** [s.lower()] *)
Fixpoint lower (s : string) : string :=
  match s with
  | EmptyString => EmptyString
  | String c s' => String (lower_ascii c) (lower s')
  end.

(** Validation of the [button_style] trait (a case-insensitive
    enumeration): the value of [button_styles] that equals the text up to
    case, if there is one. *)
Definition validate_style (s : string) : option string :=
  find (fun v => String.eqb (lower v) (lower s)) button_styles.

(** The style a new toggle button stores.  For a text that is no style
    the constructor of the button raises [TraitError]; galleries with
    such a [button_style] are outside the model, and the text is kept. *)
Definition canonical_style (s : string) : string :=
  match validate_style s with
  | Some v => v
  | None => s
  end.

(** [widgets.ToggleButton]; [observer] is the name [n] bound by the
    callback [lambda ch, n=name: self._on_toggle(ch, n)] registered with
    [observe(..., names="value")]. *)
Record ToggleButton : Type := mkToggleButton {
  description : string;
  value : bool;
  toggle_style : string;
  observer : string
}.

(** An exception raised in the body of a [with out:] block. *)
Inductive exception : Type :=
| KeyError_in_body (key : string)
| HTML_load_error (source : string).

(** What an output area can hold: the text of a displayed HTML object, or
    the traceback of an exception that its context manager suppressed. *)
Inductive output_item : Type :=
| HTML_output (data : string)
| traceback_output (e : exception).

(** [widgets.Output]: the list of items currently displayed in it. *)
Record Output : Type := mkOutput { outputs : list output_item }.

(** The widget tree below the root container.  Toggle buttons and output
    areas are the objects held in [_buttons] / [_outputs] under [key]. *)
#[warnings="-register-all"]
Inductive widget : Type :=
| ToggleButtonW (key : string)
| OutputW (key : string)
| ButtonW (label : string)
| VBox (children : list widget).

(** A call made to the display host while the output area [out] captures. *)
Inductive host_call : Type :=
| clear_output (out : string)
| display_HTML (out : string) (html : string)
| showtraceback (out : string) (e : exception).

(** The traitlets change notification (the keys the handler reads). *)
Record change : Type := mkChange {
  change_name : string;
  change_old : bool;
  change_new : bool
}.

(** ** The controller *)

Record ImageToggleGallery : Type := mkGallery {
  image_sets : dict string;
  include_close_all : bool;
  button_style : string;
  layout : option string;
  _buttons : dict ToggleButton;
  _outputs : dict Output;
  container : list widget;
  host_calls : list host_call
}.

Definition with_image_sets (d : dict string) (g : ImageToggleGallery) :=
  mkGallery d (include_close_all g) (button_style g) (layout g)
            (_buttons g) (_outputs g) (container g) (host_calls g).

Definition with_buttons (d : dict ToggleButton) (g : ImageToggleGallery) :=
  mkGallery (image_sets g) (include_close_all g) (button_style g) (layout g)
            d (_outputs g) (container g) (host_calls g).

Definition with_outputs (d : dict Output) (g : ImageToggleGallery) :=
  mkGallery (image_sets g) (include_close_all g) (button_style g) (layout g)
            (_buttons g) d (container g) (host_calls g).

Definition with_container (c : list widget) (g : ImageToggleGallery) :=
  mkGallery (image_sets g) (include_close_all g) (button_style g) (layout g)
            (_buttons g) (_outputs g) c (host_calls g).

Definition with_host_calls (l : list host_call) (g : ImageToggleGallery) :=
  mkGallery (image_sets g) (include_close_all g) (button_style g) (layout g)
            (_buttons g) (_outputs g) (container g) l.

(** *** Public API *)

Definition add_set (name html : string) (g : ImageToggleGallery) :=
  with_image_sets (dict_set (image_sets g) name html) g.

Definition remove_set (name : string) (g : ImageToggleGallery) :=
  with_image_sets (dict_pop (image_sets g) name) g.

Definition replace_set (name html : string) (g : ImageToggleGallery) :=
  with_image_sets (dict_set (image_sets g) name html) g.

(** [old in self.image_sets] and [self.image_sets.pop(old)] read the same
    entry: the page is moved when [dict_get] finds it. *)
Definition rename_set (old new : string) (g : ImageToggleGallery) :=
  match dict_get (image_sets g) old with
  | Some html =>
      with_image_sets (dict_set (dict_pop (image_sets g) old) new html) g
  | None => g
  end.

(** One iteration of the loop of [refresh]: a fresh closed button, a fresh
    empty output area, both stored under [name]. *)
Definition refresh_row (style : string)
    (acc : dict ToggleButton * dict Output * list widget) (name : string) :=
  let '(btns, outs, rows) := acc in
  let btn := mkToggleButton ("Show " ++ name) false (canonical_style style) name in
  let out := mkOutput [] in
  (dict_set btns name btn, dict_set outs name out,
   rows ++ [VBox [ToggleButtonW name; OutputW name]]).

(** Rebuilds the widgets from [image_sets]: both runtime dictionaries are
    emptied, one row per page is made, and the children of the root
    container are replaced. *)
Definition refresh (g : ImageToggleGallery) : ImageToggleGallery :=
  let '(btns, outs, rows) :=
    fold_left (refresh_row (button_style g)) (dict_keys (image_sets g))
              ([], [], []) in
  let children :=
    if include_close_all g
    then [VBox [ButtonW "Close all pages"; VBox rows]]
    else [VBox rows] in
  with_container children (with_outputs outs (with_buttons btns g)).

(** [__init__]: copies the mapping, starts with empty runtime state and an
    empty root container, then calls [refresh]. *)
Definition init (sets : dict string) (close_all : bool) (style : string)
    (lay : option string) : ImageToggleGallery :=
  refresh (mkGallery sets close_all style lay [] [] [] []).

(** *** Host primitives inside [with self._outputs[name]:] *)

Definition do_clear_output (name : string) (g : ImageToggleGallery) :=
  with_host_calls (host_calls g ++ [clear_output name])
    (with_outputs (dict_mutate (_outputs g) name (fun _ => mkOutput [])) g).

(** A host call that adds [item] to what the area [name] shows. *)
Definition publish (name : string) (item : output_item) (call : host_call)
    (g : ImageToggleGallery) :=
  with_host_calls (host_calls g ++ [call])
    (with_outputs
       (dict_mutate (_outputs g) name (fun o => mkOutput (outputs o ++ [item])))
       g).

(** [display(obj)] for an HTML object that carries [data]. *)
Definition do_display_HTML (name data : string) (g : ImageToggleGallery) :=
  publish name (HTML_output data) (display_HTML name data) g.

(** What [__exit__] of the area does with an exception of the body. *)
Definition do_showtraceback (name : string) (e : exception)
    (g : ImageToggleGallery) :=
  publish name (traceback_output e) (showtraceback name e) g.

(** [display(HTML(self.image_sets[name]))] in the body of
    [with self._outputs[name]:].  The lookup or the constructor can raise;
    the traceback is then shown in the area and the handler goes on. *)
Definition display_page (name : string) (g : ImageToggleGallery) :=
  match dict_get (image_sets g) name with
  | None => do_showtraceback name (KeyError_in_body name) g
  | Some html =>
      match HTML html with
      | Some data => do_display_HTML name data g
      | None => do_showtraceback name (HTML_load_error html) g
      end
  end.

(** *** Internals *)

(** [with self._outputs[name]: clear_output()] *)
Definition _hide_html (name : string) (g : ImageToggleGallery)
    : result ImageToggleGallery :=
  _ <- getitem (_outputs g) name ;;
  Ok (do_clear_output name g).

(** Writing one trait of a button object. *)
Definition relabel (text : string) (b : ToggleButton) : ToggleButton :=
  mkToggleButton text (value b) (toggle_style b) (observer b).

Definition switch (v : bool) (b : ToggleButton) : ToggleButton :=
  mkToggleButton (description b) v (toggle_style b) (observer b).

(** [self._buttons[name].description = text]; no observer listens to
    the [description] trait. *)
Definition set_description (name text : string) (g : ImageToggleGallery)
    : result ImageToggleGallery :=
  _ <- getitem (_buttons g) name ;;
  Ok (with_buttons (dict_mutate (_buttons g) name (relabel text)) g).

(** The [else] branch of [_on_toggle]. *)
Definition _on_toggle_closed (name : string) (g : ImageToggleGallery)
    : result ImageToggleGallery :=
  g1 <- _hide_html name g ;;
  set_description name ("Show " ++ name) g1.

(** Writing the [value] trait of the button stored under [key]. *)
Definition store_value (key : string) (v : bool) (g : ImageToggleGallery) :=
  with_buttons (dict_mutate (_buttons g) key (switch v)) g.

(** [self._buttons[key].value = False].  traitlets notifies the observers
    only when the value changes; the notification carries
    [name = "value"], [new = False], so the observer runs the [else]
    branch of [_on_toggle] with the name it was registered with. *)
Definition assign_value_False (key : string) (g : ImageToggleGallery)
    : result ImageToggleGallery :=
  b <- getitem (_buttons g) key ;;
  if value b
  then _on_toggle_closed (observer b) (store_value key false g)
  else Ok g.

(** Body of the loop [for other in self.image_sets] of [_show_html]. *)
Definition close_other (name : string) (acc : result ImageToggleGallery)
    (other : string) : result ImageToggleGallery :=
  g <- acc ;;
  if String.eqb other name then Ok g
  else
    _ <- getitem (_outputs g) other ;;
    let g1 := do_clear_output other g in
    b <- getitem (_buttons g1) other ;;
    if value b then assign_value_False other g1 else Ok g1.

(** Renders the chosen page in its region, then closes everyone else. *)
Definition _show_html (name : string) (g : ImageToggleGallery)
    : result ImageToggleGallery :=
  _ <- getitem (_outputs g) name ;;
  let g1 := do_clear_output name g in
  let g2 := display_page name g1 in
  fold_left (close_other name) (dict_keys (image_sets g2)) (Ok g2).

(** The observer of every toggle: ignores changes of other traits, shows
    the page when the toggle went on and hides it when it went off. *)
Definition _on_toggle (ch : change) (name : string) (g : ImageToggleGallery)
    : result ImageToggleGallery :=
  if negb (String.eqb (change_name ch) "value") then Ok g
  else if change_new ch then
    g1 <- _show_html name g ;;
    set_description name ("Hide " ++ name) g1
  else
    _on_toggle_closed name g.

(** Body of the loop of [_close_all]. *)
Definition close_page (acc : result ImageToggleGallery) (name : string)
    : result ImageToggleGallery :=
  g <- acc ;;
  b <- getitem (_buttons g) name ;;
  g1 <- (if value b then assign_value_False name g else _hide_html name g) ;;
  set_description name ("Show " ++ name) g1.

(** The click handler of the "Close all pages" button. *)
Definition _close_all (g : ImageToggleGallery) : result ImageToggleGallery :=
  fold_left close_page (dict_keys (image_sets g)) (Ok g).

(** *** Events delivered by the host *)

(** The user clicks the toggle shown for [key]: the front end flips the
    [value] trait of that button and its observer is notified.  Without
    such a button in the tree there is nothing to click. *)
Definition toggle_event (key : string) (g : ImageToggleGallery)
    : result ImageToggleGallery :=
  match dict_get (_buttons g) key with
  | None => Ok g
  | Some b =>
      _on_toggle (mkChange "value" (value b) (negb (value b))) (observer b)
                 (store_value key (negb (value b)) g)
  end.

(** A plain button with this label occurs in the tree. *)
Fixpoint has_button (label : string) (w : widget) : bool :=
  match w with
  | ButtonW l => String.eqb l label
  | VBox cs => existsb (has_button label) cs
  | _ => false
  end.

(** The user clicks "Close all pages", when the tree shows that button. *)
Definition close_all_event (g : ImageToggleGallery) : result ImageToggleGallery :=
  if existsb (has_button "Close all pages") (container g)
  then _close_all g
  else Ok g.

(** Toggle events delivered one after the other; the run stops at the
    first handler that raises. *)
Fixpoint run_toggles (keys : list string) (g : ImageToggleGallery)
    : result ImageToggleGallery :=
  match keys with
  | [] => Ok g
  | k :: ks => g1 <- toggle_event k g ;; run_toggles ks g1
  end.

(** ** Sequences of public operations *)

(** What a caller or the host can do to a constructed gallery. *)
Inductive op : Type :=
| AddSet (name html : string)
| RemoveSet (name : string)
| ReplaceSet (name html : string)
| RenameSet (old new : string)
| Refresh
| Toggle (key : string)
| CloseAll.

Definition step (o : op) (g : ImageToggleGallery) : result ImageToggleGallery :=
  match o with
  | AddSet name html => Ok (add_set name html g)
  | RemoveSet name => Ok (remove_set name g)
  | ReplaceSet name html => Ok (replace_set name html g)
  | RenameSet old new => Ok (rename_set old new g)
  | Refresh => Ok (refresh g)
  | Toggle key => toggle_event key g
  | CloseAll => close_all_event g
  end.

Fixpoint run (ops : list op) (g : ImageToggleGallery) : result ImageToggleGallery :=
  match ops with
  | [] => Ok g
  | o :: rest => g1 <- step o g ;; run rest g1
  end.


(** The gallery of the scenarios: two pages and a close-all button. *)
Definition sample : ImageToggleGallery :=
  init [("A", "<img a>"); ("B", "<img b>")] true "" None.

(** The same gallery once the toggle of A was switched on. *)
Definition sample_A_open : ImageToggleGallery :=
  match toggle_event "A" sample with
  | Ok g => g
  | KeyError _ => sample
  end.

(** ** Observations *)

(** Names of the toggles of a tree, top to bottom. *)
Fixpoint page_order (w : widget) : list string :=
  match w with
  | ToggleButtonW k => [k]
  | VBox cs => flat_map page_order cs
  | _ => []
  end.

Definition displayed_pages (g : ImageToggleGallery) : list string :=
  flat_map page_order (container g).

(** The pages whose toggle is on. *)
Definition open_pages (g : ImageToggleGallery) : list string :=
  dict_keys (filter (fun kb => value (snd kb)) (_buttons g)).

(** A page is closed: toggle off, "Show" label, nothing in its region. *)
Definition page_closed (g : ImageToggleGallery) (name : string) : Prop :=
  exists b, dict_get (_buttons g) name = Some b /\
            value b = false /\
            description b = ("Show " ++ name)%string /\
            dict_get (_outputs g) name = Some (mkOutput []).

(** ** [make_img_html] *)

(** The characters the template needs beside plain text. *)
Definition dquote : string := String "034"%char EmptyString.

Definition newline : string := String "010"%char EmptyString.

(** The default of the keyword [width]. *)
Definition default_width : string := "90%".

(** One element of [parts]: the f-string, with [src] and [width] put in
    as they are. *)
Definition img_tag (width src : string) : string :=
  ("<img src=" ++ dquote ++ src ++ dquote ++
   " width=" ++ dquote ++ width ++ dquote ++
   " style=" ++ dquote ++ "display:block;margin:auto;" ++ dquote ++ ">")%string.

(** [newline.join(parts)] *)
Definition make_img_html (srcs : list string) (width : string) : string :=
  String.concat newline (map (img_tag width) srcs).

(** ** Vocabulary of the statements *)

(** Apply [f] at [key] only. *)
Definition upd {A : Type} (key : string) (f : A -> A) (k : string) (a : A) : A :=
  if String.eqb k key then f a else a.

(** A button after its toggle went off and its label was reset. *)
Definition shut (k : string) (b : ToggleButton) : ToggleButton :=
  relabel ("Show " ++ k) (switch false b).

(** What forcing a toggle closed leaves of a button. *)
Definition close_button (k : string) (b : ToggleButton) : ToggleButton :=
  if value b then shut k b else b.

Definition mem (k : string) (l : list string) : bool := existsb (String.eqb k) l.

(** [effect g g' fb fo calls]: [g'] is [g] where every button went through
    [fb], every output area through [fo], and [calls] were made to the
    host; nothing else moved, and no dictionary changed its keys. *)
Record effect (g g' : ImageToggleGallery)
    (fb : string -> ToggleButton -> ToggleButton)
    (fo : string -> Output -> Output) (calls : list host_call) : Prop := {
  eff_sets : image_sets g' = image_sets g;
  eff_close_all : include_close_all g' = include_close_all g;
  eff_style : button_style g' = button_style g;
  eff_layout : layout g' = layout g;
  eff_container : container g' = container g;
  eff_bkeys : dict_keys (_buttons g') = dict_keys (_buttons g);
  eff_okeys : dict_keys (_outputs g') = dict_keys (_outputs g);
  eff_buttons : forall k,
    dict_get (_buttons g') k = option_map (fb k) (dict_get (_buttons g) k);
  eff_outputs : forall k,
    dict_get (_outputs g') k = option_map (fo k) (dict_get (_outputs g) k);
  eff_calls : host_calls g' = host_calls g ++ calls
}.

(** The runtime dictionaries are as [refresh] builds them: a button and
    an output area under the same names, each button observed by the
    callback bound to the name it is stored under. *)
Definition wired (g : ImageToggleGallery) : Prop :=
  dict_keys (_outputs g) = dict_keys (_buttons g) /\
  forall k b, dict_get (_buttons g) k = Some b -> observer b = k.

Definition cleared (o : Output) : Output := mkOutput [].

(** Apply [f] at the names of [keys] that [sel] selects. *)
Definition on_selected {A : Type} (sel : string -> bool) (keys : list string)
    (f : string -> A -> A) (k : string) (a : A) : A :=
  if mem k keys && sel k then f k a else a.

Definition not_page (name : string) (k : string) : bool := negb (String.eqb k name).

Definition show_button (name : string) (keys : list string)
    (k : string) (b : ToggleButton) : ToggleButton :=
  if String.eqb k name then b
  else if mem k keys then close_button k b else b.

Definition show_output (name : string) (item : output_item) (keys : list string)
    (k : string) (o : Output) : Output :=
  if String.eqb k name then mkOutput [item]
  else if mem k keys then mkOutput [] else o.

(** What [display_page] puts in the region of [name]: the text of the
    HTML object made from the page's content, or the traceback of what
    went wrong in making it. *)
Definition page_item (g : ImageToggleGallery) (name : string) : output_item :=
  match dict_get (image_sets g) name with
  | None => traceback_output (KeyError_in_body name)
  | Some html =>
      match HTML html with
      | Some data => HTML_output data
      | None => traceback_output (HTML_load_error html)
      end
  end.

(** The host call that puts [item] in the region of [name]. *)
Definition item_call (name : string) (item : output_item) : host_call :=
  match item with
  | HTML_output data => display_HTML name data
  | traceback_output e => showtraceback name e
  end.

Definition open_button (name : string) (keys : list string)
    (k : string) (b : ToggleButton) : ToggleButton :=
  if String.eqb k name then relabel ("Hide " ++ name) (switch true b)
  else if mem k keys then close_button k b else b.

Definition every_page (k : string) : bool := true.

Definition fresh_button (style name : string) : ToggleButton :=
  mkToggleButton ("Show " ++ name) false style name.

Definition fresh_row (name : string) : widget :=
  VBox [ToggleButtonW name; OutputW name].

Definition label (k : string) (v : bool) : string :=
  if v then "Hide " ++ k else "Show " ++ k.

(** What the region of page [k] shows, given the state of its toggle. *)
Definition region (g : ImageToggleGallery) (k : string) (v : bool)
    : list output_item :=
  if v then [page_item g k] else [].

Record synced (g : ImageToggleGallery) : Prop := {
  syn_wired : wired g;
  syn_nodup : NoDup (dict_keys (_buttons g));
  syn_pages : forall k, In k (dict_keys (image_sets g)) <-> In k (dict_keys (_buttons g));
  syn_label : forall k b, dict_get (_buttons g) k = Some b ->
                description b = label k (value b);
  syn_region : forall k b o, dict_get (_buttons g) k = Some b ->
                dict_get (_outputs g) k = Some o -> outputs o = region g k (value b);
  syn_one : forall k1 k2 b1 b2,
      dict_get (_buttons g) k1 = Some b1 -> dict_get (_buttons g) k2 = Some b2 ->
      value b1 = true -> value b2 = true -> k1 = k2
}.

(** [g] with the label of every button replaced by what [labels] gives
    for its name. *)
Definition with_labels (labels : string -> string) (g : ImageToggleGallery) :=
  with_buttons
    (map (fun kb => (fst kb, relabel (labels (fst kb)) (snd kb))) (_buttons g)) g.

(** The operations that only write [image_sets]. *)
Definition is_mutator (o : op) : bool :=
  match o with
  | AddSet _ _ | RemoveSet _ | ReplaceSet _ _ | RenameSet _ _ => true
  | _ => false
  end.

(** ** Facts about dictionaries *)

Section DictFacts.
Variable V : Type.
Implicit Types (d : dict V) (k : string) (v : V).

Lemma dict_get_In d k : dict_get d k <> None <-> In k (dict_keys d).
Proof.
  induction d as [|[k' v'] d IH]; simpl.
  - split; [congruence | tauto].
  - destruct (String.eqb_spec k k') as [->|Hne].
    + split; [auto | congruence].
    + rewrite IH. split; [auto | intros [E|H]; [congruence | exact H]].
Qed.

Lemma dict_get_Some_In d k v : dict_get d k = Some v -> In k (dict_keys d).
Proof. intros H. apply dict_get_In. congruence. Qed.

Lemma dict_get_None d k : dict_get d k = None <-> ~ In k (dict_keys d).
Proof.
  rewrite <- dict_get_In. destruct (dict_get d k); split; try congruence.
  intros H. exfalso. apply H. congruence.
Qed.

Lemma In_dict_get d k : In k (dict_keys d) -> exists v, dict_get d k = Some v.
Proof.
  intros H. apply dict_get_In in H.
  destruct (dict_get d k) as [v|]; [eauto | congruence].
Qed.

Lemma dict_keys_mutate d k f : dict_keys (dict_mutate d k f) = dict_keys d.
Proof.
  induction d as [|[k' v'] d IH]; simpl; [reflexivity|].
  destruct (String.eqb k k'); simpl; [reflexivity | now rewrite IH].
Qed.

Lemma dict_get_mutate_same d k f :
  dict_get (dict_mutate d k f) k = option_map f (dict_get d k).
Proof.
  induction d as [|[k' v'] d IH]; simpl; [reflexivity|].
  destruct (String.eqb k k') eqn:E; simpl; rewrite E; [reflexivity | exact IH].
Qed.

Lemma dict_get_mutate_other d k k0 f :
  k0 <> k -> dict_get (dict_mutate d k f) k0 = dict_get d k0.
Proof.
  intros Hne. induction d as [|[k' v'] d IH]; simpl; [reflexivity|].
  destruct (String.eqb_spec k k') as [->|Hk]; simpl.
  - destruct (String.eqb_spec k0 k'); [contradiction | reflexivity].
  - now rewrite IH.
Qed.

Lemma dict_get_set_same d k v : dict_get (dict_set d k v) k = Some v.
Proof.
  induction d as [|[k' v'] d IH]; simpl.
  - now rewrite String.eqb_refl.
  - destruct (String.eqb k k') eqn:E; simpl; rewrite E; [reflexivity | exact IH].
Qed.

Lemma dict_get_set_other d k k0 v :
  k0 <> k -> dict_get (dict_set d k v) k0 = dict_get d k0.
Proof.
  intros Hne. induction d as [|[k' v'] d IH]; simpl.
  - destruct (String.eqb_spec k0 k); [contradiction | reflexivity].
  - destruct (String.eqb_spec k k') as [->|Hk]; simpl.
    + destruct (String.eqb_spec k0 k'); [contradiction | reflexivity].
    + now rewrite IH.
Qed.

Lemma dict_keys_set_present d k v :
  In k (dict_keys d) -> dict_keys (dict_set d k v) = dict_keys d.
Proof.
  induction d as [|[k' v'] d IH]; simpl; [tauto|].
  intros H. destruct (String.eqb_spec k k') as [->|Hk]; simpl; [reflexivity|].
  rewrite IH; [reflexivity|]. destruct H; [congruence | assumption].
Qed.

Lemma dict_set_absent d k v :
  ~ In k (dict_keys d) -> dict_set d k v = d ++ [(k, v)].
Proof.
  induction d as [|[k' v'] d IH]; simpl; intros H; [reflexivity|].
  destruct (String.eqb_spec k k') as [->|Hk]; [tauto|].
  rewrite IH; [reflexivity | tauto].
Qed.

Lemma dict_set_set d k v : dict_set (dict_set d k v) k v = dict_set d k v.
Proof.
  induction d as [|[k' v'] d IH]; simpl.
  - now rewrite String.eqb_refl.
  - destruct (String.eqb k k') eqn:E; simpl; rewrite E; [reflexivity | now rewrite IH].
Qed.

Lemma dict_pop_absent d k : ~ In k (dict_keys d) -> dict_pop d k = d.
Proof.
  induction d as [|[k' v'] d IH]; simpl; intros H; [reflexivity|].
  destruct (String.eqb_spec k k') as [->|Hk]; [tauto|].
  rewrite IH; [reflexivity | tauto].
Qed.

Lemma NoDup_dict_set d k v : NoDup (dict_keys d) -> NoDup (dict_keys (dict_set d k v)).
Proof.
  intros H. destruct (in_dec string_dec k (dict_keys d)) as [Hin|Hni].
  - now rewrite dict_keys_set_present.
  - rewrite dict_set_absent by assumption. unfold dict_keys.
    rewrite map_app. simpl. apply NoDup_app.
    + exact H.
    + repeat constructor. simpl. tauto.
    + intros x Hx [<-|[]]. exact (Hni Hx).
Qed.

(** Two dictionaries with the same keys in the same order and the same
    value under every key are equal (keys being unique). *)
Lemma dict_ext d1 d2 :
  NoDup (dict_keys d1) -> dict_keys d1 = dict_keys d2 ->
  (forall k, In k (dict_keys d1) -> dict_get d1 k = dict_get d2 k) ->
  d1 = d2.
Proof.
  revert d2. induction d1 as [|[k1 v1] d1 IH]; intros [|[k2 v2] d2]; simpl;
    intros Hnd Hk Hget; try discriminate; [reflexivity|].
  injection Hk as Hk1 Hk. subst k2. inversion Hnd as [|? ? Hni Hnd']; subst.
  pose proof (Hget k1 (or_introl eq_refl)) as H0.
  rewrite String.eqb_refl in H0. injection H0 as H0. subst v2.
  f_equal. apply IH; [assumption | assumption |].
  intros k0 Hin. specialize (Hget k0 (or_intror Hin)).
  destruct (String.eqb_spec k0 k1) as [E|_]; [subst; contradiction | exact Hget].
Qed.
End DictFacts.

(** ** Effects of the handlers, described per key *)

Lemma mem_In k l : mem k l = true <-> In k l.
Proof.
  unfold mem. rewrite existsb_exists. split.
  - intros (x & Hx & E). apply String.eqb_eq in E. now subst.
  - intros H. exists k. split; [exact H | apply String.eqb_refl].
Qed.

Lemma dict_get_mutate_upd {V : Type} (d : dict V) key f k :
  dict_get (dict_mutate d key f) k = option_map (upd key f k) (dict_get d k).
Proof.
  unfold upd. destruct (String.eqb_spec k key) as [->|Hne].
  - apply dict_get_mutate_same.
  - rewrite dict_get_mutate_other by assumption. now destruct (dict_get d k).
Qed.

Lemma option_map_id {A : Type} (o : option A) : o = option_map (fun a => a) o.
Proof. now destruct o. Qed.

Ltac effect_prim :=
  constructor; simpl; try reflexivity; intros;
  first [ apply dict_keys_mutate | apply dict_get_mutate_upd
        | apply option_map_id | now rewrite app_nil_r ].

Lemma effect_refl g : effect g g (fun _ b => b) (fun _ o => o) [].
Proof.
  constructor; try reflexivity; intros; try apply option_map_id.
  now rewrite app_nil_r.
Qed.

Lemma effect_trans g g1 g2 fb1 fo1 c1 fb2 fo2 c2 :
  effect g g1 fb1 fo1 c1 -> effect g1 g2 fb2 fo2 c2 ->
  effect g g2 (fun k b => fb2 k (fb1 k b)) (fun k o => fo2 k (fo1 k o)) (c1 ++ c2).
Proof.
  intros [] []. constructor; try congruence.
  - intros k. rewrite eff_buttons1, eff_buttons0. now destruct (dict_get (_buttons g) k).
  - intros k. rewrite eff_outputs1, eff_outputs0. now destruct (dict_get (_outputs g) k).
  - rewrite eff_calls1, eff_calls0. now rewrite app_assoc.
Qed.

Lemma effect_ext g g' fb fo fb' fo' calls calls' :
  effect g g' fb fo calls ->
  (forall k b, dict_get (_buttons g) k = Some b -> fb k b = fb' k b) ->
  (forall k o, dict_get (_outputs g) k = Some o -> fo k o = fo' k o) ->
  calls = calls' ->
  effect g g' fb' fo' calls'.
Proof.
  intros [] Hb Ho <-. constructor; try assumption.
  - intros k. rewrite eff_buttons0.
    destruct (dict_get (_buttons g) k) eqn:E; simpl; [f_equal; auto | reflexivity].
  - intros k. rewrite eff_outputs0.
    destruct (dict_get (_outputs g) k) eqn:E; simpl; [f_equal; auto | reflexivity].
Qed.

Lemma effect_clear_output name g :
  effect g (do_clear_output name g) (fun _ b => b)
         (upd name (fun _ => mkOutput [])) [clear_output name].
Proof. effect_prim. Qed.

Lemma effect_publish name item call g :
  effect g (publish name item call g) (fun _ b => b)
         (upd name (fun o => mkOutput (outputs o ++ [item]))) [call].
Proof. effect_prim. Qed.

Lemma display_page_publish name g :
  display_page name g =
  publish name (page_item g name) (item_call name (page_item g name)) g.
Proof.
  unfold display_page, page_item.
  destruct (dict_get (image_sets g) name) as [html|]; [|reflexivity].
  now destruct (HTML html).
Qed.

Lemma effect_store_value key v g :
  effect g (store_value key v g) (upd key (switch v)) (fun _ o => o) [].
Proof. effect_prim. Qed.

Lemma effect_relabel name text g :
  effect g (with_buttons (dict_mutate (_buttons g) name (relabel text)) g)
         (upd name (relabel text)) (fun _ o => o) [].
Proof. effect_prim. Qed.

Lemma wired_effect g g' fb fo calls :
  effect g g' fb fo calls ->
  (forall k b, dict_get (_buttons g) k = Some b -> observer (fb k b) = observer b) ->
  wired g -> wired g'.
Proof.
  intros [] Hobs [Hk Ho]. split; [congruence|].
  intros k b'. rewrite eff_buttons0.
  destruct (dict_get (_buttons g) k) as [b|] eqn:E; simpl; [|discriminate].
  intros [= <-]. rewrite Hobs by assumption. auto.
Qed.

Lemma hide_html_spec name g :
  match _hide_html name g with
  | Ok g' => g' = do_clear_output name g /\ In name (dict_keys (_outputs g))
  | KeyError k => k = name /\ ~ In name (dict_keys (_outputs g))
  end.
Proof.
  unfold _hide_html, getitem.
  destruct (dict_get (_outputs g) name) eqn:E; simpl.
  - split; [reflexivity | eapply dict_get_Some_In; eassumption].
  - split; [reflexivity | now apply dict_get_None].
Qed.

Lemma set_description_spec name text g :
  match set_description name text g with
  | Ok g' => g' = with_buttons (dict_mutate (_buttons g) name (relabel text)) g /\
             In name (dict_keys (_buttons g))
  | KeyError k => k = name /\ ~ In name (dict_keys (_buttons g))
  end.
Proof.
  unfold set_description, getitem.
  destruct (dict_get (_buttons g) name) eqn:E; simpl.
  - split; [reflexivity | eapply dict_get_Some_In; eassumption].
  - split; [reflexivity | now apply dict_get_None].
Qed.

Lemma on_toggle_closed_spec name g :
  wired g ->
  match _on_toggle_closed name g with
  | Ok g' => In name (dict_keys (_buttons g)) /\
             effect g g' (upd name (relabel ("Show " ++ name)))
                    (upd name cleared) [clear_output name]
  | KeyError k => k = name /\ ~ In name (dict_keys (_buttons g))
  end.
Proof.
  intros [Hk _]. unfold _on_toggle_closed.
  pose proof (hide_html_spec name g) as Hh.
  destruct (_hide_html name g) as [g1|k]; simpl.
  - destruct Hh as [-> Hin]. rewrite Hk in Hin.
    pose proof (set_description_spec name ("Show " ++ name) (do_clear_output name g)) as Hs.
    destruct (set_description _ _ _) as [g2|k].
    + destruct Hs as [-> _]. split; [assumption|].
      eapply effect_ext.
      * eapply effect_trans; [apply effect_clear_output | apply effect_relabel].
      * reflexivity.
      * reflexivity.
      * reflexivity.
    + destruct Hs as [_ Hs]. simpl in Hs. contradiction.
  - destruct Hh as [-> Hni]. now rewrite Hk in Hni.
Qed.

Lemma assign_value_False_spec key g :
  wired g ->
  match assign_value_False key g with
  | Ok g' => exists b, dict_get (_buttons g) key = Some b /\
      effect g g' (upd key (close_button key))
             (if value b then upd key cleared else fun _ o => o)
             (if value b then [clear_output key] else [])
  | KeyError k => k = key /\ ~ In key (dict_keys (_buttons g))
  end.
Proof.
  intros Hw. unfold assign_value_False, getitem.
  destruct (dict_get (_buttons g) key) as [b|] eqn:Eb; simpl.
  2:{ split; [reflexivity | now apply dict_get_None]. }
  destruct (value b) eqn:Ev.
  - assert (Hobs : observer b = key) by (apply (proj2 Hw); assumption).
    rewrite Hobs.
    assert (Hw1 : wired (store_value key false g)).
    { eapply wired_effect; [apply effect_store_value | | exact Hw].
      intros k b0 _. unfold upd. now destruct (String.eqb k key). }
    pose proof (on_toggle_closed_spec key Hw1) as Hc.
    destruct (_on_toggle_closed key (store_value key false g)) as [g'|k].
    + destruct Hc as [_ Hc]. exists b. split; [reflexivity|]. rewrite Ev.
      eapply effect_ext.
      * eapply effect_trans; [apply effect_store_value | exact Hc].
      * intros k b0 E. unfold upd, close_button.
        destruct (String.eqb_spec k key) as [->|_]; [|reflexivity].
        rewrite Eb in E. injection E as <-. now rewrite Ev.
      * reflexivity.
      * reflexivity.
    + destruct Hc as [_ Hc]. exfalso. apply Hc. simpl.
      rewrite dict_keys_mutate. eapply dict_get_Some_In; eassumption.
  - exists b. split; [reflexivity|]. rewrite Ev.
    eapply effect_ext; [apply effect_refl | | reflexivity | reflexivity].
    intros k b0 E. unfold upd, close_button.
    destruct (String.eqb_spec k key) as [->|_]; [|reflexivity].
    rewrite Eb in E. injection E as <-. now rewrite Ev.
Qed.

Lemma close_button_observer k b : observer (close_button k b) = observer b.
Proof. unfold close_button. now destruct (value b). Qed.

Lemma close_button_value k b : value (close_button k b) = false.
Proof. unfold close_button. now destruct (value b) eqn:E. Qed.

Lemma close_button_idem k b : close_button k (close_button k b) = close_button k b.
Proof. unfold close_button. now destruct (value b) eqn:E; simpl; rewrite ?E. Qed.

Lemma close_button_closed k b : value b = false -> close_button k b = b.
Proof. unfold close_button. now intros ->. Qed.

Lemma close_other_spec name other g :
  wired g -> other <> name ->
  match close_other name (Ok g) other with
  | Ok g' => exists b, dict_get (_buttons g) other = Some b /\
      effect g g' (upd other (close_button other)) (upd other cleared)
             (clear_output other :: if value b then [clear_output other] else [])
  | KeyError k => k = other /\ ~ In other (dict_keys (_buttons g))
  end.
Proof.
  intros Hw Hne. unfold close_other. simpl.
  destruct (String.eqb_spec other name) as [|_]; [contradiction|].
  unfold getitem.
  destruct (dict_get (_outputs g) other) as [o|] eqn:Eo; simpl.
  2:{ split; [reflexivity|]. rewrite <- (proj1 Hw). now apply dict_get_None. }
  destruct (dict_get (_buttons g) other) as [b|] eqn:Eb; simpl.
  2:{ split; [reflexivity | now apply dict_get_None]. }
  assert (Hw1 : wired (do_clear_output other g)).
  { eapply wired_effect; [apply effect_clear_output | reflexivity | exact Hw]. }
  destruct (value b) eqn:Ev.
  - pose proof (assign_value_False_spec other Hw1) as Ha.
    destruct (assign_value_False other (do_clear_output other g)) as [g'|k].
    + destruct Ha as (b' & Eb' & Ha). simpl in Eb'. rewrite Eb in Eb'.
      injection Eb' as <-. rewrite Ev in Ha.
      exists b. split; [reflexivity|].
      eapply effect_ext.
      * eapply effect_trans; [apply effect_clear_output | exact Ha].
      * reflexivity.
      * intros k o0 _. unfold upd, cleared. now destruct (String.eqb k other).
      * now rewrite Ev.
    + destruct Ha as [_ Ha]. exfalso. apply Ha. simpl.
      eapply dict_get_Some_In; eassumption.
  - exists b. split; [reflexivity|].
    eapply effect_ext; [apply effect_clear_output | | reflexivity | now rewrite Ev].
    intros k b0 E. unfold upd.
    destruct (String.eqb_spec k other) as [->|_]; [|reflexivity].
    rewrite Eb in E. injection E as <-. symmetry. now apply close_button_closed.
Qed.

(** ** Loops over the pages

    Both [_show_html] and [_close_all] run a body once per name of
    [image_sets]; the body at [a] touches the widgets under [a] only. *)

Section PageLoop.
Variable body : result ImageToggleGallery -> string -> result ImageToggleGallery.
Variable sel : string -> bool.
Variable fb : string -> ToggleButton -> ToggleButton.
Variable fo : string -> Output -> Output.

Hypothesis body_error : forall k a, body (KeyError k) a = KeyError k.
Hypothesis body_skip : forall g a, sel a = false -> body (Ok g) a = Ok g.
Hypothesis body_spec : forall g a, wired g -> sel a = true ->
  match body (Ok g) a with
  | Ok g' => exists calls,
      effect g g' (upd a (fb a)) (upd a (fo a)) calls /\
      In (clear_output a) calls /\
      (forall c, In c calls -> c = clear_output a)
  | KeyError k => k = a /\ ~ In a (dict_keys (_buttons g))
  end.
Hypothesis fb_idem : forall k b, fb k (fb k b) = fb k b.
Hypothesis fo_idem : forall k o, fo k (fo k o) = fo k o.
Hypothesis fb_observer : forall k b, observer (fb k b) = observer b.

Lemma fold_body_error keys k : fold_left body keys (KeyError k) = KeyError k.
Proof. induction keys as [|a keys IH]; simpl; [reflexivity|]. now rewrite body_error. Qed.

Lemma on_selected_cons {A : Type} (f : string -> A -> A) a keys k x :
  (forall y, f k (f k y) = f k y) ->
  on_selected sel keys f k (if sel a then upd a (f a) k x else x) =
  on_selected sel (a :: keys) f k x.
Proof.
  intros Hid. unfold on_selected, upd, mem. simpl.
  destruct (String.eqb_spec k a) as [->|Hne]; simpl.
  - destruct (sel a); simpl.
    + destruct (existsb (String.eqb a) keys); simpl; [apply Hid | reflexivity].
    + now rewrite andb_false_r.
  - now destruct (sel a).
Qed.

Lemma page_loop_spec keys : forall g, wired g ->
  match fold_left body keys (Ok g) with
  | Ok g' => exists calls,
      effect g g' (on_selected sel keys fb) (on_selected sel keys fo) calls /\
      (forall k, In k keys -> sel k = true -> In (clear_output k) calls) /\
      (forall c, In c calls ->
         exists k, c = clear_output k /\ In k keys /\ sel k = true)
  | KeyError k => In k keys /\ sel k = true /\ ~ In k (dict_keys (_buttons g))
  end.
Proof.
  induction keys as [|a keys IH]; intros g Hw; simpl.
  - exists []. split; [|split].
    + apply effect_refl.
    + tauto.
    + intros c [].
  - destruct (sel a) eqn:Ea.
    + pose proof (@body_spec g a Hw Ea) as Hb.
      destruct (body (Ok g) a) as [g1|k].
      * destruct Hb as (c1 & He1 & Hin1 & Hall1).
        assert (Hw1 : wired g1).
        { eapply wired_effect; [exact He1 | | exact Hw].
          intros k b _. unfold upd. destruct (String.eqb k a); auto. }
        specialize (IH g1 Hw1).
        destruct (fold_left body keys (Ok g1)) as [g'|k].
        -- destruct IH as (c2 & He2 & Hin2 & Hall2).
           exists (c1 ++ c2). split; [|split].
           ++ eapply effect_ext.
              ** eapply effect_trans; [exact He1 | exact He2].
              ** intros k b _. simpl.
                 rewrite <- (on_selected_cons fb a keys k b (fb_idem k)).
                 now rewrite Ea.
              ** intros k o _. simpl.
                 rewrite <- (on_selected_cons fo a keys k o (fo_idem k)).
                 now rewrite Ea.
              ** reflexivity.
           ++ intros k [<-|Hk] Hs; apply in_or_app; [left; assumption | right; auto].
           ++ intros c Hc. apply in_app_or in Hc. destruct Hc as [Hc|Hc].
              ** exists a. rewrite (Hall1 c Hc). simpl. auto.
              ** destruct (Hall2 c Hc) as (k & -> & Hk & Hs).
                 exists k. simpl. auto.
        -- destruct IH as (Hk & Hs & Hni). split; [now right | split; [assumption|]].
           now rewrite <- (eff_bkeys He1).
      * rewrite fold_body_error. destruct Hb as [-> Hni]. auto.
    + rewrite body_skip by assumption. specialize (IH g Hw).
      destruct (fold_left body keys (Ok g)) as [g'|k].
      * destruct IH as (c2 & He2 & Hin2 & Hall2).
        exists c2. split; [|split].
        -- eapply effect_ext; [exact He2 | | | reflexivity].
           ++ intros k b _.
              rewrite <- (on_selected_cons fb a keys k b (fb_idem k)).
              now rewrite Ea.
           ++ intros k o _.
              rewrite <- (on_selected_cons fo a keys k o (fo_idem k)).
              now rewrite Ea.
        -- intros k [<-|Hk] Hs; [congruence | auto].
        -- intros c Hc. destruct (Hall2 c Hc) as (k & -> & Hk & Hs).
           exists k. simpl. auto.
      * destruct IH as (Hk & Hs & Hni). auto.
Qed.
End PageLoop.

(** ** [_show_html] *)

Lemma show_loop_spec name keys g :
  wired g ->
  match fold_left (close_other name) keys (Ok g) with
  | Ok g' => exists calls,
      effect g g' (on_selected (not_page name) keys close_button)
             (on_selected (not_page name) keys (fun _ => cleared)) calls /\
      (forall k, In k keys -> k <> name -> In (clear_output k) calls) /\
      (forall c, In c calls -> exists k, c = clear_output k /\ In k keys /\ k <> name)
  | KeyError k => In k keys /\ k <> name /\ ~ In k (dict_keys (_buttons g))
  end.
Proof.
  intros Hw.
  assert (Hsel : forall k, not_page name k = true <-> k <> name).
  { intros k. unfold not_page. destruct (String.eqb_spec k name); simpl; split;
      congruence. }
  pose proof (@page_loop_spec (close_other name) (not_page name)
                close_button (fun _ => cleared)) as H.
  specialize (H (fun k a => eq_refl)).
  assert (Hskip : forall g0 a, not_page name a = false ->
                               close_other name (Ok g0) a = Ok g0).
  { intros g0 a Ha. unfold close_other, not_page in *. simpl.
    destruct (String.eqb a name); [reflexivity | discriminate]. }
  specialize (H Hskip).
  assert (Hbody : forall g0 a, wired g0 -> not_page name a = true ->
    match close_other name (Ok g0) a with
    | Ok g' => exists calls,
        effect g0 g' (upd a (close_button a)) (upd a cleared) calls /\
        In (clear_output a) calls /\
        (forall c, In c calls -> c = clear_output a)
    | KeyError k => k = a /\ ~ In a (dict_keys (_buttons g0))
    end).
  { intros g0 a Hw0 Ha. apply Hsel in Ha.
    pose proof (close_other_spec Hw0 Ha) as Hc.
    destruct (close_other name (Ok g0) a) as [g'|k]; [|exact Hc].
    destruct Hc as (b & _ & He). eexists. split; [exact He|].
    split; [now left|].
    intros c [<-|Hc]; [reflexivity|].
    destruct (value b); [destruct Hc as [<-|[]]; reflexivity | destruct Hc]. }
  specialize (H Hbody close_button_idem (fun _ _ => eq_refl)
                close_button_observer keys g Hw).
  destruct (fold_left (close_other name) keys (Ok g)) as [g'|k].
  - destruct H as (calls & He & Hin & Hall). exists calls.
    split; [exact He | split].
    + intros k Hk Hne. apply Hin; [assumption | now apply Hsel].
    + intros c Hc. destruct (Hall c Hc) as (k & -> & Hk & Hs).
      exists k. rewrite Hsel in Hs. auto.
  - destruct H as (Hk & Hs & Hni). rewrite Hsel in Hs. auto.
Qed.

Lemma show_html_spec name g :
  wired g ->
  match _show_html name g with
  | Ok g' => exists calls,
      In name (dict_keys (_buttons g)) /\
      effect g g' (show_button name (dict_keys (image_sets g)))
             (show_output name (page_item g name) (dict_keys (image_sets g)))
             (clear_output name :: item_call name (page_item g name) :: calls) /\
      (forall k, In k (dict_keys (image_sets g)) -> k <> name ->
                 In (clear_output k) calls) /\
      (forall c, In c calls ->
         exists k, c = clear_output k /\ In k (dict_keys (image_sets g)) /\ k <> name)
  | KeyError k =>
      (k = name /\ ~ In name (dict_keys (_buttons g))) \/
      (In k (dict_keys (image_sets g)) /\ k <> name /\
       ~ In k (dict_keys (_buttons g)))
  end.
Proof.
  intros Hw. unfold _show_html, getitem.
  destruct (dict_get (_outputs g) name) as [o|] eqn:Eo; simpl.
  2:{ left. split; [reflexivity|]. rewrite <- (proj1 Hw). now apply dict_get_None. }
  rewrite display_page_publish.
  change (page_item (do_clear_output name g) name) with (page_item g name).
  set (item := page_item g name).
  set (g2 := publish name item (item_call name item) (do_clear_output name g)).
  assert (He2 : effect g g2 (fun _ b => b) (upd name (fun _ => mkOutput [item]))
                       [clear_output name; item_call name item]).
  { eapply effect_ext.
    - eapply effect_trans; [apply effect_clear_output | apply effect_publish].
    - reflexivity.
    - intros k o0 _. unfold upd. now destruct (String.eqb k name).
    - reflexivity. }
  assert (Hw2 : wired g2) by (eapply wired_effect; [exact He2 | reflexivity | exact Hw]).
  pose proof (show_loop_spec name (dict_keys (image_sets g)) Hw2) as Hl.
  change (dict_keys (image_sets g2)) with (dict_keys (image_sets g)).
  destruct (fold_left (close_other name) (dict_keys (image_sets g)) (Ok g2)) as [g'|k].
  - destruct Hl as (calls & He & Hin & Hall).
    exists calls.
    split; [rewrite <- (proj1 Hw); eapply dict_get_Some_In; eassumption|].
    split; [|split; assumption].
    eapply effect_ext.
    + eapply effect_trans; [exact He2 | exact He].
    + intros k b _. unfold on_selected, show_button, not_page.
      destruct (String.eqb k name); simpl; [now rewrite andb_false_r|].
      now rewrite andb_true_r.
    + intros k o0 _. unfold on_selected, show_output, not_page, upd, cleared.
      destruct (String.eqb k name); simpl; [now rewrite andb_false_r|].
      now rewrite andb_true_r.
    + reflexivity.
  - right. destruct Hl as (Hk & Hne & Hni). rewrite (eff_bkeys He2) in Hni. auto.
Qed.

(** ** Toggle events *)

(** The two branches of [_on_toggle] for a change of the [value] trait;
    the second is what [assign_value_False] runs. *)
Lemma on_toggle_new_True old name g :
  _on_toggle (mkChange "value" old true) name g =
  (g1 <- _show_html name g ;; set_description name ("Hide " ++ name) g1).
Proof. reflexivity. Qed.

Lemma on_toggle_new_False old name g :
  _on_toggle (mkChange "value" old false) name g = _on_toggle_closed name g.
Proof. reflexivity. Qed.

Lemma toggle_event_open_spec key g b :
  wired g -> dict_get (_buttons g) key = Some b -> value b = false ->
  match toggle_event key g with
  | Ok g' => exists calls,
      effect g g' (open_button key (dict_keys (image_sets g)))
             (show_output key (page_item g key) (dict_keys (image_sets g)))
             (clear_output key :: item_call key (page_item g key) :: calls) /\
      (forall k, In k (dict_keys (image_sets g)) -> k <> key ->
                 In (clear_output k) calls) /\
      (forall c, In c calls ->
         exists k, c = clear_output k /\ In k (dict_keys (image_sets g)) /\ k <> key)
  | KeyError k =>
      In k (dict_keys (image_sets g)) /\ k <> key /\
      ~ In k (dict_keys (_buttons g))
  end.
Proof.
  intros Hw Eb Ev. unfold toggle_event. rewrite Eb, Ev. cbn [negb].
  rewrite (proj2 Hw _ _ Eb), on_toggle_new_True.
  pose proof (effect_store_value key true g) as He0.
  assert (Hw0 : wired (store_value key true g)).
  { eapply wired_effect; [exact He0 | | exact Hw].
    intros k b0 _. unfold upd. now destruct (String.eqb k key). }
  assert (Hin : In key (dict_keys (_buttons g)))
    by (eapply dict_get_Some_In; eassumption).
  pose proof (show_html_spec key Hw0) as Hs.
  change (page_item (store_value key true g) key) with (page_item g key) in Hs.
  destruct (_show_html key (store_value key true g)) as [g1|k]; cbn [bind].
  - destruct Hs as (calls & _ & He1 & Hc1 & Hc2).
    cbn [store_value with_buttons image_sets] in *.
    pose proof (set_description_spec key ("Hide " ++ key) g1) as Hd.
    destruct (set_description key ("Hide " ++ key) g1) as [g2|k].
    + destruct Hd as [-> _]. exists calls.
      split; [|split; assumption].
      eapply effect_ext.
      * eapply effect_trans; [exact He0|].
        eapply effect_trans; [exact He1 | apply effect_relabel].
      * intros k b0 _. unfold upd, show_button, open_button. simpl.
        now destruct (String.eqb k key).
      * reflexivity.
      * simpl. now rewrite app_nil_r.
    + destruct Hd as [_ Hd]. rewrite (eff_bkeys He1) in Hd. simpl in Hd.
      rewrite dict_keys_mutate in Hd. contradiction.
  - simpl in Hs. rewrite dict_keys_mutate in Hs.
    destruct Hs as [[-> Hs]|Hs]; [contradiction | exact Hs].
Qed.

Lemma toggle_event_close_spec key g b :
  wired g -> dict_get (_buttons g) key = Some b -> value b = true ->
  exists g', toggle_event key g = Ok g' /\
    effect g g' (upd key (shut key)) (upd key cleared) [clear_output key].
Proof.
  intros Hw Eb Ev. unfold toggle_event. rewrite Eb, Ev. cbn [negb].
  rewrite (proj2 Hw _ _ Eb), on_toggle_new_False.
  pose proof (effect_store_value key false g) as He0.
  assert (Hw0 : wired (store_value key false g)).
  { eapply wired_effect; [exact He0 | | exact Hw].
    intros k b0 _. unfold upd. now destruct (String.eqb k key). }
  pose proof (on_toggle_closed_spec key Hw0) as Hc.
  destruct (_on_toggle_closed key (store_value key false g)) as [g'|k].
  - destruct Hc as [_ Hc]. exists g'. split; [reflexivity|].
    eapply effect_ext.
    + eapply effect_trans; [exact He0 | exact Hc].
    + intros k b0 _. unfold upd, shut. now destruct (String.eqb k key).
    + reflexivity.
    + reflexivity.
  - destruct Hc as [_ Hc]. exfalso. apply Hc. simpl. rewrite dict_keys_mutate.
    eapply dict_get_Some_In; eassumption.
Qed.

(** ** [_close_all] *)

Lemma shut_idem k b : shut k (shut k b) = shut k b.
Proof. reflexivity. Qed.

Lemma shut_closed k b : value b = false -> relabel ("Show " ++ k) b = shut k b.
Proof. unfold shut, relabel, switch. simpl. now intros ->. Qed.

Lemma close_page_spec name g :
  wired g ->
  match close_page (Ok g) name with
  | Ok g' => effect g g' (upd name (shut name)) (upd name cleared) [clear_output name]
  | KeyError k => k = name /\ ~ In name (dict_keys (_buttons g))
  end.
Proof.
  intros Hw. unfold close_page, getitem. simpl.
  destruct (dict_get (_buttons g) name) as [b|] eqn:Eb; simpl.
  2:{ split; [reflexivity | now apply dict_get_None]. }
  assert (Hin : In name (dict_keys (_buttons g)))
    by (eapply dict_get_Some_In; eassumption).
  destruct (value b) eqn:Ev.
  - pose proof (assign_value_False_spec name Hw) as Ha.
    destruct (assign_value_False name g) as [g1|k]; simpl.
    2:{ destruct Ha as [_ Ha]. contradiction. }
    destruct Ha as (b' & Eb' & He1). rewrite Eb in Eb'. injection Eb' as <-.
    rewrite Ev in He1.
    pose proof (set_description_spec name ("Show " ++ name) g1) as Hd.
    destruct (set_description name ("Show " ++ name) g1) as [g2|k].
    + destruct Hd as [-> _].
      eapply effect_ext.
      * eapply effect_trans; [exact He1 | apply effect_relabel].
      * intros k b0 E. unfold upd, close_button.
        destruct (String.eqb_spec k name) as [->|_]; [|reflexivity].
        rewrite Eb in E. injection E as <-. now rewrite Ev.
      * reflexivity.
      * reflexivity.
    + destruct Hd as [_ Hd]. rewrite (eff_bkeys He1) in Hd. contradiction.
  - pose proof (hide_html_spec name g) as Hh.
    destruct (_hide_html name g) as [g1|k]; simpl.
    2:{ destruct Hh as [_ Hh]. rewrite (proj1 Hw) in Hh. contradiction. }
    destruct Hh as [-> _].
    pose proof (set_description_spec name ("Show " ++ name) (do_clear_output name g)) as Hd.
    destruct (set_description _ _ _) as [g2|k].
    + destruct Hd as [-> _].
      eapply effect_ext.
      * eapply effect_trans; [apply effect_clear_output | apply effect_relabel].
      * intros k b0 E. unfold upd.
        destruct (String.eqb_spec k name) as [->|_]; [|reflexivity].
        rewrite Eb in E. injection E as <-. now apply shut_closed.
      * reflexivity.
      * reflexivity.
    + destruct Hd as [_ Hd]. simpl in Hd. contradiction.
Qed.

Lemma close_all_spec g :
  wired g ->
  match _close_all g with
  | Ok g' => exists calls,
      effect g g' (on_selected every_page (dict_keys (image_sets g)) shut)
             (on_selected every_page (dict_keys (image_sets g)) (fun _ => cleared))
             calls /\
      (forall k, In k (dict_keys (image_sets g)) -> In (clear_output k) calls) /\
      (forall c, In c calls ->
         exists k, c = clear_output k /\ In k (dict_keys (image_sets g)))
  | KeyError k => In k (dict_keys (image_sets g)) /\ ~ In k (dict_keys (_buttons g))
  end.
Proof.
  intros Hw. unfold _close_all.
  pose proof (@page_loop_spec close_page every_page shut (fun _ => cleared)) as H.
  specialize (H (fun k a => eq_refl)).
  assert (Hskip : forall g0 a, every_page a = false -> close_page (Ok g0) a = Ok g0)
    by (intros; discriminate).
  specialize (H Hskip).
  assert (Hbody : forall g0 a, wired g0 -> every_page a = true ->
    match close_page (Ok g0) a with
    | Ok g' => exists calls,
        effect g0 g' (upd a (shut a)) (upd a cleared) calls /\
        In (clear_output a) calls /\
        (forall c, In c calls -> c = clear_output a)
    | KeyError k => k = a /\ ~ In a (dict_keys (_buttons g0))
    end).
  { intros g0 a Hw0 _. pose proof (close_page_spec a Hw0) as Hc.
    destruct (close_page (Ok g0) a) as [g'|k]; [|exact Hc].
    exists [clear_output a]. split; [exact Hc|]. split; [now left|].
    intros c [<-|[]]. reflexivity. }
  specialize (H Hbody shut_idem (fun _ _ => eq_refl) (fun _ _ => eq_refl)
                (dict_keys (image_sets g)) g Hw).
  destruct (fold_left close_page (dict_keys (image_sets g)) (Ok g)) as [g'|k].
  - destruct H as (calls & He & Hin & Hall). exists calls.
    split; [exact He | split].
    + intros k Hk. now apply Hin.
    + intros c Hc. destruct (Hall c Hc) as (k & -> & Hk & _). eauto.
  - destruct H as (Hk & _ & Hni). auto.
Qed.

(** ** [refresh] *)

Lemma refresh_rows_spec style names : forall btns outs rows,
  dict_keys outs = dict_keys btns ->
  NoDup (dict_keys btns) ->
  exists btns' outs',
    fold_left (refresh_row style) names (btns, outs, rows) =
      (btns', outs', rows ++ map fresh_row names) /\
    dict_keys outs' = dict_keys btns' /\
    NoDup (dict_keys btns') /\
    (forall k, In k (dict_keys btns') <-> In k (dict_keys btns) \/ In k names) /\
    (forall k, In k names ->
       dict_get btns' k = Some (fresh_button (canonical_style style) k) /\
       dict_get outs' k = Some (mkOutput [])) /\
    (forall k, ~ In k names ->
       dict_get btns' k = dict_get btns k /\ dict_get outs' k = dict_get outs k).
Proof.
  induction names as [|a names IH]; intros btns outs rows Hk Hnd; simpl.
  - exists btns, outs. rewrite app_nil_r.
    repeat split; try assumption; try tauto.
  - set (btns1 := dict_set btns a (fresh_button (canonical_style style) a)).
    set (outs1 := dict_set outs a (mkOutput [])).
    assert (Hk1 : dict_keys outs1 = dict_keys btns1).
    { unfold btns1, outs1.
      destruct (in_dec string_dec a (dict_keys btns)) as [Hin|Hni].
      - rewrite !dict_keys_set_present; congruence.
      - rewrite !dict_set_absent by congruence.
        unfold dict_keys in *. rewrite !map_app. simpl. congruence. }
    assert (Hnd1 : NoDup (dict_keys btns1)) by now apply NoDup_dict_set.
    destruct (IH btns1 outs1 (rows ++ [fresh_row a]) Hk1 Hnd1)
      as (btns' & outs' & Hf & Hk' & Hnd' & Hin' & Hnew & Hold).
    exists btns', outs'. split; [|split; [|split; [|split; [|split]]]];
      try assumption.
    + fold (fresh_button (canonical_style style) a). fold (fresh_row a). fold btns1 outs1.
      rewrite Hf. now rewrite <- app_assoc.
    + intros k. rewrite Hin'. unfold btns1.
      destruct (in_dec string_dec a (dict_keys btns)) as [Hin|Hni].
      * rewrite dict_keys_set_present by assumption.
        split; [tauto | intros [H|[<-|H]]; tauto].
      * rewrite dict_set_absent by assumption. unfold dict_keys.
        rewrite map_app, in_app_iff. simpl. tauto.
    + intros k Hin.
      destruct (in_dec string_dec k names) as [Hkn|Hkn]; [now apply Hnew|].
      destruct Hin as [<-|Hin]; [|contradiction].
      destruct (Hold a Hkn) as [-> ->]. unfold btns1, outs1.
      now rewrite !dict_get_set_same.
    + intros k Hni. destruct (Hold k) as [-> ->]; [tauto|].
      unfold btns1, outs1. rewrite !dict_get_set_other; [tauto | |];
        intros ->; apply Hni; now left.
Qed.

Lemma refresh_spec g :
  exists btns outs,
    refresh g =
      with_container
        (if include_close_all g
         then [VBox [ButtonW "Close all pages";
                     VBox (map fresh_row (dict_keys (image_sets g)))]]
         else [VBox (map fresh_row (dict_keys (image_sets g)))])
        (with_outputs outs (with_buttons btns g)) /\
    dict_keys outs = dict_keys btns /\
    NoDup (dict_keys btns) /\
    (forall k, In k (dict_keys btns) <-> In k (dict_keys (image_sets g))) /\
    (forall k, In k (dict_keys (image_sets g)) ->
       dict_get btns k = Some (fresh_button (canonical_style (button_style g)) k) /\
       dict_get outs k = Some (mkOutput [])).
Proof.
  destruct (@refresh_rows_spec (button_style g) (dict_keys (image_sets g))
              [] [] [] eq_refl (NoDup_nil _))
    as (btns & outs & Hf & Hk & Hnd & Hin & Hnew & _).
  exists btns, outs. unfold refresh. unfold dict in *. rewrite Hf. simpl.
  split; [reflexivity|]. split; [assumption|]. split; [assumption|].
  split.
  - intros k. rewrite Hin. simpl. tauto.
  - exact Hnew.
Qed.

(** ** The state between a [refresh] and the next change of [image_sets] *)

Lemma synced_refresh g : synced (refresh g).
Proof.
  destruct (refresh_spec g) as (btns & outs & -> & Hk & Hnd & Hin & Hnew).
  assert (Hb : forall k b, dict_get btns k = Some b ->
                           b = fresh_button (canonical_style (button_style g)) k).
  { intros k b E. pose proof (dict_get_Some_In _ _ E) as H.
    apply Hin, Hnew in H. destruct H as [H _]. congruence. }
  constructor; simpl.
  - split; simpl; [assumption|]. intros k b E. now rewrite (Hb k b E).
  - assumption.
  - intros k. now rewrite Hin.
  - intros k b E. now rewrite (Hb k b E).
  - intros k b o E Eo. rewrite (Hb k b E). simpl.
    pose proof (dict_get_Some_In _ _ E) as H. apply Hin, Hnew in H.
    destruct H as [_ H]. rewrite H in Eo. now injection Eo as <-.
  - intros k1 k2 b1 b2 E1 _ V1. rewrite (Hb k1 b1 E1) in V1. discriminate.
Qed.

Lemma synced_keys_mem g k :
  synced g -> In k (dict_keys (_buttons g)) -> mem k (dict_keys (image_sets g)) = true.
Proof. intros Hs Hin. apply mem_In. now apply (syn_pages Hs). Qed.

Lemma effect_region g g' fb fo calls k v :
  effect g g' fb fo calls -> region g' k v = region g k v.
Proof. intros He. unfold region, page_item. now rewrite (eff_sets He). Qed.

Lemma synced_toggle_open key g g' b calls :
  synced g -> dict_get (_buttons g) key = Some b ->
  effect g g' (open_button key (dict_keys (image_sets g)))
         (show_output key (page_item g key) (dict_keys (image_sets g))) calls ->
  synced g'.
Proof.
  intros Hs Eb He.
  assert (Hopen : forall k b0, dict_get (_buttons g) k = Some b0 ->
            open_button key (dict_keys (image_sets g)) k b0 =
            if String.eqb k key then relabel ("Hide " ++ key) (switch true b0)
            else close_button k b0).
  { intros k b0 E. unfold open_button. destruct (String.eqb k key); [reflexivity|].
    rewrite (@synced_keys_mem g k Hs); [reflexivity|].
    eapply dict_get_Some_In; eassumption. }
  assert (Hout : forall k o, dict_get (_outputs g) k = Some o ->
            show_output key (page_item g key) (dict_keys (image_sets g)) k o =
            if String.eqb k key then mkOutput [page_item g key] else mkOutput []).
  { intros k o E. unfold show_output. destruct (String.eqb k key); [reflexivity|].
    rewrite (@synced_keys_mem g k Hs); [reflexivity|].
    rewrite <- (proj1 (syn_wired Hs)). eapply dict_get_Some_In; eassumption. }
  constructor.
  - eapply wired_effect; [exact He | | exact (syn_wired Hs)].
    intros k b0 E. rewrite (Hopen k b0 E).
    destruct (String.eqb k key); [reflexivity | apply close_button_observer].
  - rewrite (eff_bkeys He). exact (syn_nodup Hs).
  - intros k. rewrite (eff_sets He), (eff_bkeys He). exact (syn_pages Hs k).
  - intros k b'. rewrite (eff_buttons He).
    destruct (dict_get (_buttons g) k) as [b0|] eqn:E; simpl; [|discriminate].
    intros [= <-]. rewrite (Hopen k b0 E).
    destruct (String.eqb_spec k key) as [->|_]; [reflexivity|].
    unfold close_button. destruct (value b0) eqn:Ev; [reflexivity|].
    rewrite (syn_label Hs _ E). now rewrite Ev.
  - intros k b' o'. rewrite (eff_buttons He), (eff_outputs He).
    destruct (dict_get (_buttons g) k) as [b0|] eqn:E; simpl; [|discriminate].
    destruct (dict_get (_outputs g) k) as [o0|] eqn:Eo; simpl; [|discriminate].
    intros [= <-] [= <-]. rewrite (Hopen k b0 E), (Hout k o0 Eo).
    rewrite (effect_region k _ He).
    destruct (String.eqb_spec k key) as [->|_].
    + reflexivity.
    + now rewrite close_button_value.
  - intros k1 k2 b1' b2'. rewrite !(eff_buttons He).
    destruct (dict_get (_buttons g) k1) as [b1|] eqn:E1; simpl; [|discriminate].
    destruct (dict_get (_buttons g) k2) as [b2|] eqn:E2; simpl; [|discriminate].
    intros [= <-] [= <-]. rewrite (Hopen k1 b1 E1), (Hopen k2 b2 E2).
    destruct (String.eqb_spec k1 key) as [->|_];
      destruct (String.eqb_spec k2 key) as [->|_];
      rewrite ?close_button_value; congruence.
Qed.

Lemma synced_toggle_close key g g' calls :
  synced g ->
  effect g g' (upd key (shut key)) (upd key cleared) calls ->
  synced g'.
Proof.
  intros Hs He. constructor.
  - eapply wired_effect; [exact He | | exact (syn_wired Hs)].
    intros k b0 _. unfold upd. now destruct (String.eqb k key).
  - rewrite (eff_bkeys He). exact (syn_nodup Hs).
  - intros k. rewrite (eff_sets He), (eff_bkeys He). exact (syn_pages Hs k).
  - intros k b'. rewrite (eff_buttons He).
    destruct (dict_get (_buttons g) k) as [b0|] eqn:E; simpl; [|discriminate].
    intros [= <-]. unfold upd.
    destruct (String.eqb_spec k key) as [->|_]; [reflexivity|].
    exact (syn_label Hs _ E).
  - intros k b' o'. rewrite (eff_buttons He), (eff_outputs He).
    destruct (dict_get (_buttons g) k) as [b0|] eqn:E; simpl; [|discriminate].
    destruct (dict_get (_outputs g) k) as [o0|] eqn:Eo; simpl; [|discriminate].
    intros [= <-] [= <-]. rewrite (effect_region k _ He). unfold upd.
    destruct (String.eqb_spec k key) as [->|_]; [reflexivity|].
    exact (syn_region Hs _ E Eo).
  - intros k1 k2 b1' b2'. rewrite !(eff_buttons He).
    destruct (dict_get (_buttons g) k1) as [b1|] eqn:E1; simpl; [|discriminate].
    destruct (dict_get (_buttons g) k2) as [b2|] eqn:E2; simpl; [|discriminate].
    intros [= <-] [= <-]. unfold upd.
    destruct (String.eqb_spec k1 key) as [->|_]; [discriminate|].
    destruct (String.eqb_spec k2 key) as [->|_]; [discriminate|].
    exact (syn_one Hs _ _ E1 E2).
Qed.

(** A toggle event on a synced gallery returns, and leaves it synced. *)
Lemma synced_toggle_event key g :
  synced g -> exists g', toggle_event key g = Ok g' /\ synced g'.
Proof.
  intros Hs.
  destruct (dict_get (_buttons g) key) as [b|] eqn:Eb.
  2:{ exists g. unfold toggle_event. now rewrite Eb. }
  destruct (value b) eqn:Ev.
  - destruct (toggle_event_close_spec key (syn_wired Hs) Eb Ev) as (g' & -> & He).
    exists g'. split; [reflexivity|]. eapply synced_toggle_close; eassumption.
  - pose proof (toggle_event_open_spec key (syn_wired Hs) Eb Ev) as Ht.
    destruct (toggle_event key g) as [g'|k].
    + destruct Ht as (calls & He & _).
      exists g'. split; [reflexivity|]. eapply synced_toggle_open; eassumption.
    + exfalso. destruct Ht as (Hin & _ & Hni).
      apply Hni, (syn_pages Hs), Hin.
Qed.

Lemma synced_run_toggles keys : forall g,
  synced g -> exists g', run_toggles keys g = Ok g' /\ synced g'.
Proof.
  induction keys as [|k keys IH]; intros g Hs; simpl.
  - eauto.
  - destruct (synced_toggle_event k Hs) as (g1 & -> & Hs1). simpl. auto.
Qed.

(** ** Exclusivity *)

Lemma In_dict_get_NoDup {V : Type} (d : dict V) k v :
  NoDup (dict_keys d) -> In (k, v) d -> dict_get d k = Some v.
Proof.
  induction d as [|[k' v'] d IH]; simpl; intros Hnd Hin; [contradiction|].
  inversion Hnd as [|? ? Hni Hnd']; subst.
  destruct Hin as [[= -> ->]|Hin].
  - now rewrite String.eqb_refl.
  - destruct (String.eqb_spec k k') as [->|_]; [|auto].
    exfalso. apply Hni. change k' with (fst (k', v)). now apply in_map.
Qed.

Lemma at_most_one_open (d : dict ToggleButton) :
  NoDup (dict_keys d) ->
  (forall k1 k2 b1 b2, dict_get d k1 = Some b1 -> dict_get d k2 = Some b2 ->
     value b1 = true -> value b2 = true -> k1 = k2) ->
  List.length (filter (fun kb => value (snd kb)) d) <= 1.
Proof.
  intros Hnd Hone.
  assert (Hpair : forall k1 b1 k2 b2, In (k1, b1) d -> In (k2, b2) d ->
                    value b1 = true -> value b2 = true -> k1 = k2).
  { intros k1 b1 k2 b2 H1 H2. apply Hone; now apply In_dict_get_NoDup. }
  clear Hone. induction d as [|[k b] d IH]; simpl; [lia|].
  inversion Hnd as [|? ? Hni Hnd']; subst.
  destruct (value b) eqn:Ev; simpl.
  - assert (Hnil : filter (fun kb => value (snd kb)) d = []).
    { destruct (filter (fun kb => value (snd kb)) d) as [|[k' b'] l] eqn:Ef;
        [reflexivity|].
      assert (Hin : In (k', b') (filter (fun kb => value (snd kb)) d))
        by (rewrite Ef; now left).
      apply filter_In in Hin. destruct Hin as [Hin Hv]. simpl in Hv.
      assert (k = k') by (eapply Hpair; [now left | right; eassumption | | ]; assumption).
      subst k'. exfalso. apply Hni. change k with (fst (k, b')). now apply in_map. }
    rewrite Hnil. simpl. lia.
  - apply IH; [assumption|]. intros k1 b1 k2 b2 H1 H2.
    apply Hpair; now right.
Qed.

Lemma synced_open_pages g : synced g -> List.length (open_pages g) <= 1.
Proof.
  intros Hs. unfold open_pages, dict_keys. rewrite length_map.
  apply at_most_one_open; [exact (syn_nodup Hs) | exact (syn_one Hs)].
Qed.

(** C1. Exclusivity: after a refresh, whatever toggle events the host
    delivers (and so after each of them, every prefix being such a
    sequence), each handler returns and at most one toggle is on. *)
Theorem exclusivity_after_refresh (g0 : ImageToggleGallery) (events : list string) :
  exists g, run_toggles events (refresh g0) = Ok g /\ List.length (open_pages g) <= 1.
Proof.
  destruct (synced_run_toggles events (synced_refresh g0)) as (g & Hrun & Hs).
  exists g. split; [exact Hrun | now apply synced_open_pages].
Qed.

(** ** Opening a page *)




Lemma reached_synced g0 events g :
  run_toggles events (refresh g0) = Ok g -> synced g.
Proof.
  intros Hrun.
  destruct (synced_run_toggles events (synced_refresh g0)) as (g1 & Hrun1 & Hs).
  rewrite Hrun in Hrun1. now injection Hrun1 as <-.
Qed.


(** ** Closing a page *)

Lemma wired_step o g g' : wired g -> step o g = Ok g' -> wired g'.
Proof.
  intros Hw. destruct o; simpl; try (intros [= <-]; exact Hw).
  - intros [= <-]. unfold rename_set.
    destruct (dict_get (image_sets g) old); exact Hw.
  - intros [= <-]. exact (syn_wired (synced_refresh g)).
  - intros Ht. destruct (dict_get (_buttons g) key) as [b|] eqn:Eb.
    2:{ unfold toggle_event in Ht. rewrite Eb in Ht. now injection Ht as <-. }
    destruct (value b) eqn:Ev.
    + destruct (toggle_event_close_spec key Hw Eb Ev) as (g1 & Ht1 & He).
      rewrite Ht in Ht1. injection Ht1 as <-.
      eapply wired_effect; [exact He | | exact Hw].
      intros k b0 _. unfold upd. now destruct (String.eqb k key).
    + pose proof (toggle_event_open_spec key Hw Eb Ev) as Ht1.
      rewrite Ht in Ht1. destruct Ht1 as (calls & He & _).
      eapply wired_effect; [exact He | | exact Hw].
      intros k b0 _. unfold open_button.
      destruct (String.eqb k key); [reflexivity|].
      destruct (mem k (dict_keys (image_sets g)));
        [apply close_button_observer | reflexivity].
  - unfold close_all_event.
    destruct (existsb (has_button "Close all pages") (container g));
      [|intros [= <-]; exact Hw].
    intros Hc. pose proof (close_all_spec Hw) as Hc1. rewrite Hc in Hc1.
    destruct Hc1 as (calls & He & _).
    eapply wired_effect; [exact He | | exact Hw].
    intros k b0 _. unfold on_selected.
    now destruct (mem k (dict_keys (image_sets g)) && every_page k).
Qed.

Lemma wired_run ops : forall g g', wired g -> run ops g = Ok g' -> wired g'.
Proof.
  induction ops as [|o ops IH]; simpl; intros g g' Hw Hr.
  - now injection Hr as <-.
  - destruct (step o g) as [g1|k] eqn:Es; simpl in Hr; [|discriminate].
    eapply IH; [|exact Hr]. eapply wired_step; eassumption.
Qed.

(** C7. Switching an open page off, in any state whose widgets are
    wired as [refresh] wires them, hence in every state the controller
    reaches ([wired_run]): the handler returns, the page's region is
    cleared, its label becomes "Show <name>" whatever it read before,
    and the toggle, label and region of every other page, the page set
    and the widget tree are what they were. *)
Theorem toggle_close_effect (g : ImageToggleGallery) (name : string)
    (b : ToggleButton) :
  wired g ->
  dict_get (_buttons g) name = Some b -> value b = true ->
  exists g',
    toggle_event name g = Ok g' /\
    dict_get (_outputs g') name = Some (mkOutput []) /\
    dict_get (_buttons g') name =
      Some (mkToggleButton ("Show " ++ name) false (toggle_style b) (observer b)) /\
    host_calls g' = host_calls g ++ [clear_output name] /\
    image_sets g' = image_sets g /\
    container g' = container g /\
    forall other, other <> name ->
      dict_get (_buttons g') other = dict_get (_buttons g) other /\
      dict_get (_outputs g') other = dict_get (_outputs g) other.
Proof.
  intros Hw Eb Ev.
  destruct (toggle_event_close_spec name Hw Eb Ev) as (g' & Ht & He).
  exists g'. split; [exact Ht|].
  destruct (In_dict_get (_outputs g) name) as [o Eo].
  { rewrite (proj1 Hw). eapply dict_get_Some_In; eassumption. }
  split; [|split; [|split; [|split; [|split]]]].
  - rewrite (eff_outputs He), Eo. simpl. unfold upd. now rewrite String.eqb_refl.
  - rewrite (eff_buttons He), Eb. simpl. unfold upd.
    now rewrite String.eqb_refl.
  - exact (eff_calls He).
  - exact (eff_sets He).
  - exact (eff_container He).
  - intros other Hne. rewrite (eff_buttons He), (eff_outputs He). unfold upd.
    destruct (String.eqb_spec other name); [contradiction|].
    now rewrite <- !option_map_id.
Qed.

(** ** Closing every page *)

Lemma shut_closed_button g k b :
  synced g -> dict_get (_buttons g) k = Some b -> value b = false -> shut k b = b.
Proof.
  intros Hs Eb Ev. pose proof (syn_label Hs _ Eb) as Hl. rewrite Ev in Hl.
  destruct b as [d v s o]. simpl in *. subst. reflexivity.
Qed.

Lemma synced_close_all g :
  synced g ->
  exists g' calls,
    _close_all g = Ok g' /\ synced g' /\
    host_calls g' = host_calls g ++ calls /\
    image_sets g' = image_sets g /\
    container g' = container g /\
    (forall k, In k (dict_keys (image_sets g)) ->
       In (clear_output k) calls /\ page_closed g' k) /\
    (forall k b, dict_get (_buttons g) k = Some b ->
       dict_get (_buttons g') k = Some (shut k b)) /\
    (forall k o, dict_get (_outputs g') k = Some o -> o = mkOutput []).
Proof.
  intros Hs. pose proof (close_all_spec (syn_wired Hs)) as Hc.
  destruct (_close_all g) as [g'|k].
  2:{ exfalso. destruct Hc as [Hin Hni]. now apply Hni, (syn_pages Hs). }
  destruct Hc as (calls & He & Hclr & _).
  assert (Hb : forall k b, dict_get (_buttons g) k = Some b ->
                           dict_get (_buttons g') k = Some (shut k b)).
  { intros k b Eb. rewrite (eff_buttons He), Eb. simpl. unfold on_selected.
    rewrite (@synced_keys_mem g k Hs); [reflexivity|].
    eapply dict_get_Some_In; eassumption. }
  assert (Ho : forall k o, dict_get (_outputs g') k = Some o -> o = mkOutput []).
  { intros k o. rewrite (eff_outputs He).
    destruct (dict_get (_outputs g) k) as [o0|] eqn:Eo; simpl; [|discriminate].
    intros [= <-]. unfold on_selected.
    rewrite (@synced_keys_mem g k Hs); [reflexivity|].
    rewrite <- (proj1 (syn_wired Hs)). eapply dict_get_Some_In; eassumption. }
  assert (Hb' : forall k b', dict_get (_buttons g') k = Some b' ->
                  exists b, dict_get (_buttons g) k = Some b /\ b' = shut k b).
  { intros k b' E. destruct (In_dict_get (_buttons g) k) as [b Eb].
    - rewrite <- (eff_bkeys He). eapply dict_get_Some_In; eassumption.
    - exists b. split; [assumption|]. rewrite (Hb k b Eb) in E. congruence. }
  exists g', calls. split; [reflexivity|]. split.
  { constructor.
    - eapply wired_effect; [exact He | | exact (syn_wired Hs)].
      intros k b0 _. unfold on_selected.
      now destruct (mem k (dict_keys (image_sets g)) && every_page k).
    - rewrite (eff_bkeys He). exact (syn_nodup Hs).
    - intros k. rewrite (eff_sets He), (eff_bkeys He). exact (syn_pages Hs k).
    - intros k b' E. destruct (Hb' k b' E) as (b & _ & ->). reflexivity.
    - intros k b' o' E Eo. destruct (Hb' k b' E) as (b & _ & ->).
      now rewrite (Ho k o' Eo).
    - intros k1 k2 b1 b2 E1 _ V1. destruct (Hb' k1 b1 E1) as (b & _ & ->).
      discriminate. }
  split; [exact (eff_calls He)|]. split; [exact (eff_sets He)|].
  split; [exact (eff_container He)|]. split; [|split; assumption].
  intros k Hin. split; [now apply Hclr|].
  destruct (In_dict_get (_buttons g) k) as [b Eb]; [now apply (syn_pages Hs)|].
  exists (shut k b). split; [now apply Hb|]. repeat split.
  destruct (In_dict_get (_outputs g') k) as [o Eo].
  { rewrite (eff_okeys He), (proj1 (syn_wired Hs)). now apply (syn_pages Hs). }
  now rewrite Eo, (Ho k o Eo).
Qed.

Lemma filter_open_nil (d : dict ToggleButton) :
  NoDup (dict_keys d) ->
  (forall k b, dict_get d k = Some b -> value b = false) ->
  filter (fun kb => value (snd kb)) d = [].
Proof.
  intros Hnd Hall.
  destruct (filter (fun kb => value (snd kb)) d) as [|[k b] l] eqn:Ef; [reflexivity|].
  assert (Hin : In (k, b) (filter (fun kb => value (snd kb)) d))
    by (rewrite Ef; now left).
  apply filter_In in Hin. destruct Hin as [Hin Hv]. simpl in Hv.
  rewrite (Hall k b) in Hv; [discriminate | now apply In_dict_get_NoDup].
Qed.

Lemma dict_keys_map_values {V : Type} (f : string -> V -> V) (d : dict V) :
  dict_keys (map (fun kv => (fst kv, f (fst kv) (snd kv))) d) = dict_keys d.
Proof.
  unfold dict_keys. rewrite map_map. apply map_ext. now intros [k v].
Qed.

Lemma dict_get_map_values {V : Type} (f : string -> V -> V) (d : dict V) k :
  dict_get (map (fun kv => (fst kv, f (fst kv) (snd kv))) d) k =
  option_map (f k) (dict_get d k).
Proof.
  induction d as [|[k' v'] d IH]; simpl; [reflexivity|].
  destruct (String.eqb_spec k k') as [->|_]; [reflexivity | exact IH].
Qed.

(** Close-all closes every page that has its widgets, whatever the
    buttons read. *)
Lemma close_all_closes g :
  wired g ->
  (forall k, In k (dict_keys (image_sets g)) -> In k (dict_keys (_buttons g))) ->
  exists g', _close_all g = Ok g' /\
    forall name, In name (dict_keys (image_sets g)) -> page_closed g' name.
Proof.
  intros Hw Hpages. pose proof (close_all_spec Hw) as Hc.
  destruct (_close_all g) as [g'|k].
  2:{ exfalso. destruct Hc as [Hin Hni]. exact (Hni (Hpages k Hin)). }
  destruct Hc as (calls & He & _). exists g'. split; [reflexivity|].
  intros name Hin.
  assert (Hm : mem name (dict_keys (image_sets g)) = true) by now apply mem_In.
  destruct (In_dict_get (_buttons g) name (Hpages name Hin)) as [b Eb].
  destruct (In_dict_get (_outputs g) name) as [o Eo].
  { rewrite (proj1 Hw). exact (Hpages name Hin). }
  exists (shut name b). split; [|split; [reflexivity|split; [reflexivity|]]].
  - rewrite (eff_buttons He), Eb. cbn [option_map]. unfold on_selected.
    now rewrite Hm.
  - rewrite (eff_outputs He), Eo. cbn [option_map]. unfold on_selected.
    now rewrite Hm.
Qed.

Lemma wired_with_labels labels g : wired g -> wired (with_labels labels g).
Proof.
  intros [Hk Ho]. split; simpl.
  - rewrite Hk. symmetry.
    exact (dict_keys_map_values (fun k0 => relabel (labels k0)) (_buttons g)).
  - intros k b'. rewrite (dict_get_map_values (fun k0 => relabel (labels k0))).
    destruct (dict_get (_buttons g) k) as [b|] eqn:E; simpl; [|discriminate].
    intros [= <-]. simpl. exact (Ho k b E).
Qed.

(** C5. Close-all, from any state reached by toggle events after a
    refresh.  In that state an open page is labelled "Hide <name>" and a
    closed one "Show <name>".  The handler returns; [clear_output] runs
    on the region of every page; every page ends closed (toggle off,
    "Show <name>", empty region), and it would whatever the labels read
    before the click; a page that was closed keeps the button it had;
    and running the handler again changes no button and no region. *)
Theorem close_all_effect (g0 : ImageToggleGallery) (events : list string) :
  exists g g' calls,
    run_toggles events (refresh g0) = Ok g /\
    (forall name b, dict_get (_buttons g) name = Some b ->
       description b =
         (if value b then "Hide " ++ name else "Show " ++ name)%string) /\
    (forall labels : string -> string, exists g2,
       _close_all (with_labels labels g) = Ok g2 /\
       forall name, In name (dict_keys (image_sets g)) -> page_closed g2 name) /\
    _close_all g = Ok g' /\
    host_calls g' = host_calls g ++ calls /\
    (forall name, In name (dict_keys (image_sets g)) ->
       In (clear_output name) calls /\ page_closed g' name) /\
    (forall name b, dict_get (_buttons g) name = Some b -> value b = false ->
       dict_get (_buttons g') name = Some b) /\
    open_pages g' = [] /\
    exists g'', _close_all g' = Ok g'' /\
      _buttons g'' = _buttons g' /\ _outputs g'' = _outputs g' /\
      image_sets g'' = image_sets g' /\ container g'' = container g'.
Proof.
  destruct (synced_run_toggles events (synced_refresh g0)) as (g & Hrun & Hs).
  destruct (synced_close_all Hs)
    as (g' & calls & Hc & Hs' & Hcalls & Hsets & Hcont & Hpages & Hb & Ho).
  exists g, g', calls. split; [exact Hrun|].
  split; [intros name b E; exact (syn_label Hs _ E)|].
  split.
  { intros labels.
    apply (@close_all_closes (with_labels labels g)
             (wired_with_labels labels (syn_wired Hs))).
    intros k Hin. simpl.
    rewrite (dict_keys_map_values (fun k0 => relabel (labels k0)) (_buttons g)).
    now apply (syn_pages Hs). }
  repeat (split; [assumption|]).
  split; [|split].
  - intros name b Eb Ev. rewrite (Hb name b Eb). f_equal.
    exact (@shut_closed_button g name b Hs Eb Ev).
  - unfold open_pages. rewrite filter_open_nil; [reflexivity | exact (syn_nodup Hs') |].
    intros k b' E. destruct (In_dict_get (_buttons g) k) as [b Eb].
    { apply (syn_pages Hs). rewrite <- Hsets. apply (syn_pages Hs').
      eapply dict_get_Some_In; eassumption. }
    rewrite (Hb k b Eb) in E. now injection E as <-.
  - destruct (synced_close_all Hs')
      as (g'' & calls' & Hc' & Hs'' & _ & Hsets' & Hcont' & _ & Hb2 & Ho2).
    exists g''. split; [exact Hc'|].
    assert (Hbk : dict_keys (_buttons g'') = dict_keys (_buttons g')).
    { pose proof (close_all_spec (syn_wired Hs')) as Hspec. rewrite Hc' in Hspec.
      destruct Hspec as (c & He & _). exact (eff_bkeys He). }
    split; [|split; [|split; assumption]].
    + apply dict_ext; [exact (syn_nodup Hs'') | exact Hbk |].
      intros k Hin. rewrite Hbk in Hin.
      destruct (In_dict_get _ _ Hin) as [b' Eb']. rewrite Eb', (Hb2 k b' Eb').
      f_equal. eapply shut_closed_button; [exact Hs' | exact Eb' |].
      destruct (In_dict_get (_buttons g) k) as [b Eb].
      { apply (syn_pages Hs). rewrite <- Hsets. now apply (syn_pages Hs'). }
      rewrite (Hb k b Eb) in Eb'. now injection Eb' as <-.
    + assert (Hok : dict_keys (_outputs g'') = dict_keys (_outputs g')).
      { rewrite (proj1 (syn_wired Hs'')), (proj1 (syn_wired Hs')). exact Hbk. }
      apply dict_ext; [|exact Hok|].
      * rewrite (proj1 (syn_wired Hs'')). exact (syn_nodup Hs'').
      * intros k Hin. destruct (In_dict_get _ _ Hin) as [o2 Eo2].
        rewrite Hok in Hin. destruct (In_dict_get _ _ Hin) as [o1 Eo1].
        rewrite Eo2, Eo1, (Ho2 k o2 Eo2), (Ho k o1 Eo1). reflexivity.
Qed.

(** ** Lookups of the handlers *)




(** ** Rebuilding the tree *)

Lemma flat_map_fresh_row names :
  flat_map page_order (map fresh_row names) = names.
Proof. induction names as [|a names IH]; simpl; [reflexivity | now rewrite IH]. Qed.

Lemma displayed_pages_refresh g :
  displayed_pages (refresh g) = dict_keys (image_sets g).
Proof.
  destruct (refresh_spec g) as (btns & outs & -> & _).
  unfold displayed_pages. simpl.
  destruct (include_close_all g); simpl;
    now rewrite flat_map_fresh_row, !app_nil_r.
Qed.

Lemma image_sets_refresh g : image_sets (refresh g) = image_sets g.
Proof. destruct (refresh_spec g) as (btns & outs & -> & _). reflexivity. Qed.

Lemma page_closed_refresh g name :
  In name (dict_keys (image_sets g)) -> page_closed (refresh g) name.
Proof.
  intros Hin. destruct (refresh_spec g) as (btns & outs & -> & _ & _ & _ & Hnew).
  destruct (Hnew name Hin) as [Eb Eo].
  exists (fresh_button (canonical_style (button_style g)) name). simpl.
  repeat split; assumption.
Qed.


(** ** Changing the page set *)

(** C4. Rename collision: with pages A -> x and B -> y, renaming A to B
    leaves the single page B -> x; the widgets are not touched. *)
Theorem rename_collision (g : ImageToggleGallery) :
  image_sets g = [("A", "x"); ("B", "y")] ->
  image_sets (rename_set "A" "B" g) = [("B", "x")] /\
  _buttons (rename_set "A" "B" g) = _buttons g /\
  _outputs (rename_set "A" "B" g) = _outputs g.
Proof. intros H. unfold rename_set. rewrite H. simpl. repeat split. Qed.

Lemma with_image_sets_same g : with_image_sets (image_sets g) g = g.
Proof. now destruct g. Qed.

(** C8. Removing a name that is not a page, or renaming one, returns the
    controller as it was: page set, widgets, tree and all. *)
Theorem absent_name_noop (g : ImageToggleGallery) (name : string) :
  ~ In name (dict_keys (image_sets g)) ->
  remove_set name g = g /\ forall new, rename_set name new g = g.
Proof.
  intros Hni. split.
  - unfold remove_set. rewrite dict_pop_absent by assumption.
    apply with_image_sets_same.
  - intros new. unfold rename_set.
    now rewrite (proj2 (dict_get_None _ _) Hni).
Qed.

(** C9. Replacing a page twice with the same name and HTML gives the
    controller that replacing it once gives. *)
Theorem replace_set_idempotent (g : ImageToggleGallery) (name html : string) :
  replace_set name html (replace_set name html g) = replace_set name html g.
Proof. unfold replace_set, with_image_sets. simpl. now rewrite dict_set_set. Qed.

Lemma dict_keys_pop {V : Type} (d : dict V) k :
  NoDup (dict_keys d) ->
  dict_keys (dict_pop d k) = remove string_dec k (dict_keys d).
Proof.
  induction d as [|[k' v'] d IH]; simpl; intros Hnd; [reflexivity|].
  inversion Hnd as [|? ? Hni Hnd']; subst.
  destruct (String.eqb_spec k k') as [->|Hne]; destruct (string_dec _ _) as [E|E];
    try congruence.
  - symmetry. now apply notin_remove.
  - simpl. now rewrite IH.
Qed.

(** C10. [rename_set] on a page that exists: the names of the other
    pages keep their order; the new name goes last unless it names
    another existing page, in which case it stays where that page was;
    renaming a page to its own name moves it last as well.  The content
    follows the name, and the next [refresh] shows the pages in that
    order. *)
Theorem rename_set_position (g : ImageToggleGallery) (old new html : string) :
  NoDup (dict_keys (image_sets g)) ->
  dict_get (image_sets g) old = Some html ->
  dict_keys (image_sets (rename_set old new g)) =
    (if String.eqb new old || negb (mem new (dict_keys (image_sets g)))
     then remove string_dec old (dict_keys (image_sets g)) ++ [new]
     else remove string_dec old (dict_keys (image_sets g))) /\
  dict_get (image_sets (rename_set old new g)) new = Some html /\
  displayed_pages (refresh (rename_set old new g)) =
    dict_keys (image_sets (rename_set old new g)).
Proof.
  intros Hnd Eo. split; [|split].
  - unfold rename_set. rewrite Eo. simpl.
    rewrite <- (dict_keys_pop _ old Hnd).
    destruct (in_dec string_dec new (dict_keys (dict_pop (image_sets g) old)))
      as [Hin|Hni].
    + rewrite dict_keys_set_present by assumption.
      rewrite dict_keys_pop in Hin by assumption. apply in_remove in Hin.
      destruct Hin as [Hin Hne].
      destruct (String.eqb_spec new old); [contradiction|].
      apply mem_In in Hin. now rewrite Hin.
    + rewrite dict_set_absent by assumption.
      unfold dict_keys at 1. rewrite map_app. simpl. fold (dict_keys (dict_pop (image_sets g) old)).
      destruct (String.eqb_spec new old) as [->|Hne]; [reflexivity|].
      destruct (mem new (dict_keys (image_sets g))) eqn:Hm; [|reflexivity].
      exfalso. apply Hni. rewrite dict_keys_pop by assumption.
      apply in_in_remove; [assumption | now apply mem_In].
  - unfold rename_set. rewrite Eo. simpl. apply dict_get_set_same.
  - apply displayed_pages_refresh.
Qed.

(** * Further properties of the code *)

(** ** [make_img_html] *)

Lemma append_assoc (a b c : string) : ((a ++ b) ++ c = a ++ (b ++ c))%string.
Proof. induction a as [|x a IH]; [reflexivity | exact (f_equal (String x) IH)]. Qed.

Lemma length_append (a b : string) :
  String.length (a ++ b) = String.length a + String.length b.
Proof. induction a as [|x a IH]; [reflexivity | exact (f_equal S IH)]. Qed.

Lemma concat_app (sep : string) (xs ys : list string) :
  xs <> [] -> ys <> [] ->
  String.concat sep (xs ++ ys) =
  (String.concat sep xs ++ sep ++ String.concat sep ys)%string.
Proof.
  intros Hx Hy. induction xs as [|x xs IH]; [contradiction|].
  destruct xs as [|x' xs].
  - destruct ys as [|y ys]; [contradiction | reflexivity].
  - change (String.concat sep ((x :: x' :: xs) ++ ys))
      with (x ++ sep ++ String.concat sep ((x' :: xs) ++ ys))%string.
    rewrite IH by discriminate.
    change (String.concat sep (x :: x' :: xs))
      with (x ++ sep ++ String.concat sep (x' :: xs))%string.
    now rewrite !append_assoc.
Qed.

(** X1. The block for two non-empty lists of sources put one after the
    other is the two blocks joined by one newline: one tag per source, in
    the order of the sources. *)
Theorem make_img_html_app (xs ys : list string) (width : string) :
  xs <> [] -> ys <> [] ->
  make_img_html (xs ++ ys) width =
  (make_img_html xs width ++ newline ++ make_img_html ys width)%string.
Proof.
  intros Hx Hy. unfold make_img_html. rewrite map_app.
  apply concat_app; now destruct xs, ys.
Qed.

Lemma img_tag_length (width src : string) :
  String.length (img_tag width src) = 56 + String.length src + String.length width.
Proof.
  unfold img_tag. rewrite !length_append. cbn [String.length dquote]. lia.
Qed.

(** X2. Size of the block: 56 characters of markup per source besides
    the source and the width themselves, and one newline between two
    tags; nothing for no source. *)
Theorem make_img_html_length (srcs : list string) (width : string) :
  String.length (make_img_html srcs width) =
  list_sum (map (fun src => 56 + String.length src + String.length width) srcs)
  + (List.length srcs - 1).
Proof.
  unfold make_img_html. induction srcs as [|a srcs IH]; [reflexivity|].
  destruct srcs as [|b srcs].
  - cbn [map String.concat list_sum fold_right List.length].
    rewrite img_tag_length. lia.
  - change (String.concat newline (map (img_tag width) (a :: b :: srcs)))
      with (img_tag width a ++ newline ++
            String.concat newline (map (img_tag width) (b :: srcs)))%string.
    rewrite !length_append, IH, img_tag_length.
    cbn [map list_sum fold_right List.length String.length newline]. lia.
Qed.

(** ** The page set *)

Lemma dict_get_set {V : Type} (d : dict V) k k0 v :
  dict_get (dict_set d k v) k0 = if String.eqb k0 k then Some v else dict_get d k0.
Proof.
  destruct (String.eqb_spec k0 k) as [->|Hne].
  - apply dict_get_set_same.
  - now apply dict_get_set_other.
Qed.

Lemma dict_keys_set {V : Type} (d : dict V) k v :
  dict_keys (dict_set d k v) =
  if mem k (dict_keys d) then dict_keys d else dict_keys d ++ [k].
Proof.
  destruct (mem k (dict_keys d)) eqn:Hm.
  - apply dict_keys_set_present. now apply mem_In.
  - rewrite dict_set_absent.
    + unfold dict_keys. now rewrite map_app.
    + intros Hin. apply mem_In in Hin. congruence.
Qed.

Lemma dict_get_pop_other {V : Type} (d : dict V) k k0 :
  k0 <> k -> dict_get (dict_pop d k) k0 = dict_get d k0.
Proof.
  intros Hne. induction d as [|[k' v'] d IH]; simpl; [reflexivity|].
  destruct (String.eqb_spec k k') as [->|Hk]; simpl.
  - destruct (String.eqb_spec k0 k'); [contradiction | reflexivity].
  - now rewrite IH.
Qed.

Lemma dict_get_pop_same {V : Type} (d : dict V) k :
  NoDup (dict_keys d) -> dict_get (dict_pop d k) k = None.
Proof.
  intros Hnd. apply dict_get_None. rewrite dict_keys_pop by assumption.
  apply remove_In.
Qed.

Lemma dict_get_app_last {V : Type} (d : dict V) k v :
  ~ In k (dict_keys d) -> dict_get (d ++ [(k, v)]) k = Some v.
Proof.
  intros Hni. rewrite <- dict_set_absent by assumption. apply dict_get_set_same.
Qed.

Lemma dict_pop_app_last {V : Type} (d : dict V) k v :
  ~ In k (dict_keys d) -> dict_pop (d ++ [(k, v)]) k = d.
Proof.
  induction d as [|[k' v'] d IH]; simpl; intros Hni.
  - now rewrite String.eqb_refl.
  - destruct (String.eqb_spec k k') as [->|_]; [tauto|].
    rewrite IH; [reflexivity | tauto].
Qed.

(** X3. [add_set] (and [replace_set], which is the same assignment): the
    name then maps to the HTML given, every other page keeps its content,
    a name that was a page keeps its place and a new name goes last; the
    next [refresh] shows the pages in that order. *)
Theorem add_set_effect (g : ImageToggleGallery) (name html : string) :
  replace_set name html g = add_set name html g /\
  (forall k, dict_get (image_sets (add_set name html g)) k =
             if String.eqb k name then Some html else dict_get (image_sets g) k) /\
  dict_keys (image_sets (add_set name html g)) =
    (if mem name (dict_keys (image_sets g))
     then dict_keys (image_sets g)
     else dict_keys (image_sets g) ++ [name]) /\
  displayed_pages (refresh (add_set name html g)) =
    dict_keys (image_sets (add_set name html g)).
Proof.
  split; [reflexivity|]. split; [|split].
  - intros k. apply dict_get_set.
  - apply dict_keys_set.
  - apply displayed_pages_refresh.
Qed.

(** X4. [remove_set] on a page set with distinct names: the name is no
    page any more, every other page keeps its content, and the remaining
    names keep their order. *)
Theorem remove_set_effect (g : ImageToggleGallery) (name : string) :
  NoDup (dict_keys (image_sets g)) ->
  (forall k, dict_get (image_sets (remove_set name g)) k =
             if String.eqb k name then None else dict_get (image_sets g) k) /\
  dict_keys (image_sets (remove_set name g)) =
    remove string_dec name (dict_keys (image_sets g)).
Proof.
  intros Hnd. split.
  - intros k. simpl. destruct (String.eqb_spec k name) as [->|Hne].
    + now apply dict_get_pop_same.
    + now apply dict_get_pop_other.
  - simpl. now apply dict_keys_pop.
Qed.

(** X5. Adding a page under a name that is no page and removing it again
    gives back the controller as it was. *)
Theorem remove_add_set_roundtrip (g : ImageToggleGallery) (name html : string) :
  ~ In name (dict_keys (image_sets g)) ->
  remove_set name (add_set name html g) = g.
Proof.
  intros Hni. unfold remove_set, add_set. simpl.
  rewrite dict_set_absent, dict_pop_app_last by assumption.
  now destruct g.
Qed.

(** X6. [rename_set] on a page of a page set with distinct names: the
    new name maps to the content of the old one, the old name is no page
    any more (unless it is the new name), and every other page keeps its
    content. *)
Theorem rename_set_lookup (g : ImageToggleGallery) (old new html : string) :
  NoDup (dict_keys (image_sets g)) ->
  dict_get (image_sets g) old = Some html ->
  forall k, dict_get (image_sets (rename_set old new g)) k =
            if String.eqb k new then Some html
            else if String.eqb k old then None
            else dict_get (image_sets g) k.
Proof.
  intros Hnd Eo k. unfold rename_set. rewrite Eo. simpl.
  rewrite dict_get_set. destruct (String.eqb k new); [reflexivity|].
  destruct (String.eqb_spec k old) as [->|Hne].
  - now apply dict_get_pop_same.
  - now apply dict_get_pop_other.
Qed.

(** X7. Renaming a page to a name that is no page and then back does not
    undo the first call: the content is back under the old name, but the
    page is where renaming it to its own name puts it, last. *)
Theorem rename_set_back (g : ImageToggleGallery) (old new html : string) :
  NoDup (dict_keys (image_sets g)) ->
  dict_get (image_sets g) old = Some html ->
  ~ In new (dict_keys (image_sets g)) ->
  rename_set new old (rename_set old new g) = rename_set old old g /\
  image_sets (rename_set old old g) = dict_pop (image_sets g) old ++ [(old, html)].
Proof.
  intros Hnd Eo Hni.
  assert (Hpo : ~ In old (dict_keys (dict_pop (image_sets g) old))).
  { rewrite dict_keys_pop by assumption. apply remove_In. }
  assert (Hpn : ~ In new (dict_keys (dict_pop (image_sets g) old))).
  { rewrite dict_keys_pop by assumption. intros H. apply in_remove in H. tauto. }
  assert (E1 : rename_set old new g =
               with_image_sets (dict_pop (image_sets g) old ++ [(new, html)]) g).
  { unfold rename_set. rewrite Eo. now rewrite dict_set_absent. }
  assert (E2 : rename_set old old g =
               with_image_sets (dict_pop (image_sets g) old ++ [(old, html)]) g).
  { unfold rename_set. rewrite Eo. now rewrite dict_set_absent. }
  split; [|now rewrite E2].
  rewrite E2, E1. unfold rename_set. simpl.
  rewrite dict_get_app_last, dict_pop_app_last by assumption.
  now rewrite dict_set_absent.
Qed.

Lemma mutator_widgets o g :
  is_mutator o = true ->
  exists g', step o g = Ok g' /\
    _buttons g' = _buttons g /\ _outputs g' = _outputs g /\
    container g' = container g /\ host_calls g' = host_calls g.
Proof.
  destruct o; try discriminate; intros _; simpl; eexists;
    (split; [reflexivity|]); try (repeat split; reflexivity).
  unfold rename_set. destruct (dict_get (image_sets g) old); repeat split.
Qed.

(** X8. The page set can be edited at will without the display noticing:
    a run of [add_set], [remove_set], [replace_set] and [rename_set] calls
    never raises and leaves the widgets, the tree and the host log as
    they were, so the pages shown and the page open are the same until
    [refresh] is called. *)
Theorem mutators_leave_display (ops : list op) (g : ImageToggleGallery) :
  forallb is_mutator ops = true ->
  exists g', run ops g = Ok g' /\
    _buttons g' = _buttons g /\ _outputs g' = _outputs g /\
    container g' = container g /\ host_calls g' = host_calls g /\
    displayed_pages g' = displayed_pages g /\ open_pages g' = open_pages g.
Proof.
  revert g. induction ops as [|o ops IH]; intros g Hm; simpl in *.
  - exists g. repeat split.
  - apply andb_prop in Hm. destruct Hm as [Ho Hm].
    destruct (mutator_widgets o g Ho) as (g1 & -> & Hb & Hout & Hc & Hh). simpl.
    destruct (IH g1 Hm) as (g' & Hr & Hb' & Hout' & Hc' & Hh' & Hd' & Hop').
    exists g'. split; [exact Hr|].
    unfold displayed_pages, open_pages in *.
    repeat split; congruence.
Qed.

(** ** Construction and rebuilding *)

Lemma refresh_fields g :
  image_sets (refresh g) = image_sets g /\
  include_close_all (refresh g) = include_close_all g /\
  button_style (refresh g) = button_style g /\
  layout (refresh g) = layout g /\
  host_calls (refresh g) = host_calls g.
Proof. destruct (refresh_spec g) as (btns & outs & -> & _). repeat split. Qed.

(** X9. What [refresh] leaves in the runtime dictionaries when the
    configured [button_style] is a style of the toggle button, in any
    case of letters: under each page name a closed button labelled
    "Show <name>" that stores the style in its canonical spelling and is
    bound to that name, and an empty output area; under any other name
    nothing, whatever was there before.  It makes no host call and does
    not write the page set. *)
Theorem refresh_widgets (g : ImageToggleGallery) (k v : string) :
  validate_style (button_style g) = Some v ->
  dict_get (_buttons (refresh g)) k =
    (if mem k (dict_keys (image_sets g))
     then Some (mkToggleButton ("Show " ++ k) false v k)
     else None) /\
  dict_get (_outputs (refresh g)) k =
    (if mem k (dict_keys (image_sets g)) then Some (mkOutput []) else None) /\
  image_sets (refresh g) = image_sets g /\
  host_calls (refresh g) = host_calls g.
Proof.
  intros Hv.
  assert (Hc : canonical_style (button_style g) = v)
    by (unfold canonical_style; now rewrite Hv).
  destruct (refresh_spec g) as (btns & outs & E & Hk & Hnd & Hin & Hnew).
  assert (Eb : _buttons (refresh g) = btns) by now rewrite E.
  assert (Eo : _outputs (refresh g) = outs) by now rewrite E.
  rewrite Eb, Eo.
  split; [|split; [|split]]; try apply refresh_fields.
  - destruct (mem k (dict_keys (image_sets g))) eqn:Hm.
    + apply mem_In in Hm. destruct (Hnew k Hm) as [H _]. rewrite H, Hc. reflexivity.
    + apply dict_get_None. rewrite Hin. intros H. apply mem_In in H. congruence.
  - destruct (mem k (dict_keys (image_sets g))) eqn:Hm.
    + apply mem_In in Hm. now apply Hnew.
    + apply dict_get_None. rewrite Hk, Hin. intros H. apply mem_In in H. congruence.
Qed.

Lemma has_button_fresh_rows label names :
  existsb (has_button label) (map fresh_row names) = false.
Proof. induction names as [|a names IH]; simpl; [reflexivity | exact IH]. Qed.

Lemma close_all_button_refresh g :
  existsb (has_button "Close all pages") (container (refresh g)) = include_close_all g.
Proof.
  destruct (refresh_spec g) as (btns & outs & -> & _). simpl.
  destruct (include_close_all g); simpl.
  - reflexivity.
  - now rewrite has_button_fresh_rows.
Qed.

Lemma open_pages_refresh g : open_pages (refresh g) = [].
Proof.
  pose proof (synced_refresh g) as Hs.
  unfold open_pages. rewrite filter_open_nil; [reflexivity | exact (syn_nodup Hs) |].
  intros k b E.
  destruct (page_closed_refresh g k) as (b' & Eb' & Ev & _).
  - rewrite <- image_sets_refresh. apply (syn_pages Hs).
    eapply dict_get_Some_In; eassumption.
  - congruence.
Qed.

(** X10. A gallery as constructed: it holds the mapping and the options
    it was given, has made no host call, shows the pages in the order of
    the mapping, all of them closed, and shows the "Close all pages"
    button exactly when that option was set. *)
Theorem init_state (sets : dict string) (close_all : bool) (style : string)
    (lay : option string) :
  image_sets (init sets close_all style lay) = sets /\
  include_close_all (init sets close_all style lay) = close_all /\
  button_style (init sets close_all style lay) = style /\
  layout (init sets close_all style lay) = lay /\
  host_calls (init sets close_all style lay) = [] /\
  displayed_pages (init sets close_all style lay) = dict_keys sets /\
  open_pages (init sets close_all style lay) = [] /\
  (forall name, In name (dict_keys sets) ->
     page_closed (init sets close_all style lay) name) /\
  existsb (has_button "Close all pages") (container (init sets close_all style lay))
    = close_all.
Proof.
  unfold init.
  set (g := mkGallery sets close_all style lay [] [] [] []).
  destruct (refresh_fields g) as (H1 & H2 & H3 & H4 & H5).
  repeat (split; [assumption|]).
  split; [apply displayed_pages_refresh|].
  split; [apply open_pages_refresh|].
  split; [intros name Hin; exact (@page_closed_refresh g name Hin)|].
  apply close_all_button_refresh.
Qed.

(** ** Toggle events between a refresh and the next change of the page set *)

Lemma close_button_style k b : toggle_style (close_button k b) = toggle_style b.
Proof. unfold close_button. now destruct (value b). Qed.

(** A toggle event on a shown button flips that toggle and leaves every
    other toggle off; styles are not touched. *)
Lemma synced_toggle_summary key g b :
  synced g -> dict_get (_buttons g) key = Some b ->
  exists g', toggle_event key g = Ok g' /\ synced g' /\
    image_sets g' = image_sets g /\
    dict_keys (_buttons g') = dict_keys (_buttons g) /\
    forall k bk, dict_get (_buttons g) k = Some bk ->
      exists bk', dict_get (_buttons g') k = Some bk' /\
        toggle_style bk' = toggle_style bk /\
        value bk' = if String.eqb k key then negb (value b) else false.
Proof.
  intros Hs Eb. destruct (value b) eqn:Ev.
  - destruct (toggle_event_close_spec key (syn_wired Hs) Eb Ev) as (g' & Ht & He).
    exists g'. split; [exact Ht|].
    split; [eapply synced_toggle_close; eassumption|].
    split; [exact (eff_sets He)|]. split; [exact (eff_bkeys He)|].
    intros k bk Ek. rewrite (eff_buttons He), Ek. simpl. unfold upd.
    destruct (String.eqb_spec k key) as [->|Hne].
    + eexists. split; [reflexivity|]. split; reflexivity.
    + exists bk. split; [reflexivity|]. split; [reflexivity|].
      destruct (value bk) eqn:Evk; [|reflexivity].
      exfalso. apply Hne. exact (syn_one Hs _ _ Ek Eb Evk Ev).
  - pose proof (toggle_event_open_spec key (syn_wired Hs) Eb Ev) as Ht.
    destruct (toggle_event key g) as [g'|k0].
    2:{ exfalso. destruct Ht as (Hin & _ & Hni). apply Hni, (syn_pages Hs), Hin. }
    destruct Ht as (calls & He & _).
    exists g'. split; [reflexivity|].
    split; [eapply synced_toggle_open; eassumption|].
    split; [exact (eff_sets He)|]. split; [exact (eff_bkeys He)|].
    intros k bk Ek. rewrite (eff_buttons He), Ek. simpl. unfold open_button.
    destruct (String.eqb_spec k key) as [->|Hne].
    + eexists. split; [reflexivity|]. split; reflexivity.
    + rewrite (@synced_keys_mem g k Hs) by (eapply dict_get_Some_In; eassumption).
      eexists. split; [reflexivity|].
      split; [apply close_button_style | apply close_button_value].
Qed.

(** Between two synced states over the same pages, the widgets are
    determined by which toggles are on and by the styles. *)
Lemma synced_widgets_eq g1 g2 :
  synced g1 -> synced g2 ->
  image_sets g1 = image_sets g2 ->
  dict_keys (_buttons g1) = dict_keys (_buttons g2) ->
  (forall k b1 b2, dict_get (_buttons g1) k = Some b1 ->
     dict_get (_buttons g2) k = Some b2 ->
     value b1 = value b2 /\ toggle_style b1 = toggle_style b2) ->
  _buttons g1 = _buttons g2 /\ _outputs g1 = _outputs g2.
Proof.
  intros Hs1 Hs2 Hsets Hkeys Hval. split.
  - apply dict_ext; [exact (syn_nodup Hs1) | exact Hkeys |].
    intros k Hin. destruct (In_dict_get _ _ Hin) as [b1 E1].
    rewrite Hkeys in Hin. destruct (In_dict_get _ _ Hin) as [b2 E2].
    rewrite E1, E2. f_equal.
    destruct (Hval k b1 b2 E1 E2) as [Hv Hst].
    pose proof (syn_label Hs1 _ E1) as L1. pose proof (syn_label Hs2 _ E2) as L2.
    pose proof (proj2 (syn_wired Hs1) _ _ E1) as O1.
    pose proof (proj2 (syn_wired Hs2) _ _ E2) as O2.
    destruct b1, b2. simpl in *. congruence.
  - apply dict_ext.
    + rewrite (proj1 (syn_wired Hs1)). exact (syn_nodup Hs1).
    + rewrite (proj1 (syn_wired Hs1)), (proj1 (syn_wired Hs2)). exact Hkeys.
    + intros k Hin. destruct (In_dict_get _ _ Hin) as [o1 Eo1].
      rewrite (proj1 (syn_wired Hs1)) in Hin.
      destruct (In_dict_get _ _ Hin) as [b1 E1].
      rewrite Hkeys in Hin. destruct (In_dict_get _ _ Hin) as [b2 E2].
      rewrite <- (proj1 (syn_wired Hs2)) in Hin.
      destruct (In_dict_get _ _ Hin) as [o2 Eo2].
      rewrite Eo1, Eo2. f_equal.
      pose proof (syn_region Hs1 _ E1 Eo1) as R1.
      pose proof (syn_region Hs2 _ E2 Eo2) as R2.
      destruct (Hval k b1 b2 E1 E2) as [Hv _].
      unfold region, page_item in *. rewrite Hsets, Hv in R1.
      destruct o1, o2. simpl in *. congruence.
Qed.

Lemma filter_open_single (d : dict ToggleButton) key b :
  NoDup (dict_keys d) ->
  dict_get d key = Some b -> value b = true ->
  (forall k bk, k <> key -> dict_get d k = Some bk -> value bk = false) ->
  dict_keys (filter (fun kb => value (snd kb)) d) = [key].
Proof.
  induction d as [|[k' b'] d IH]; simpl; intros Hnd Eb Ev Hoth; [discriminate|].
  inversion Hnd as [|? ? Hni Hnd']; subst.
  destruct (String.eqb_spec key k') as [->|Hne].
  - injection Eb as ->. rewrite Ev. simpl. f_equal.
    rewrite filter_open_nil; [reflexivity | assumption |].
    intros k bk Ek. apply (Hoth k).
    + intros ->. apply Hni. eapply dict_get_Some_In; eassumption.
    + destruct (String.eqb_spec k k') as [->|_]; [|exact Ek].
      exfalso. apply Hni. eapply dict_get_Some_In; eassumption.
  - assert (Ev' : value b' = false).
    { apply (Hoth k'); [congruence | now rewrite String.eqb_refl]. }
    rewrite Ev'. apply IH; try assumption.
    intros k bk Hk Ek. apply (Hoth k bk Hk).
    destruct (String.eqb_spec k k') as [->|_]; [|exact Ek].
    exfalso. apply Hni. eapply dict_get_Some_In; eassumption.
Qed.


(** X11. After a toggle event on a shown button, with the page set as it
    was at the latest refresh, the pages open are exactly: the toggled
    page if it was closed, none if it was open. *)
Theorem toggle_event_open_pages (g0 : ImageToggleGallery) (events : list string)
    (g : ImageToggleGallery) (key : string) (b : ToggleButton) :
  run_toggles events (refresh g0) = Ok g ->
  dict_get (_buttons g) key = Some b ->
  exists g', toggle_event key g = Ok g' /\
    open_pages g' = if value b then [] else [key].
Proof.
  intros Hrun Eb. pose proof (reached_synced _ _ Hrun) as Hs.
  destruct (synced_toggle_summary key Hs Eb)
    as (g' & Ht & Hs' & _ & Hk & Hval).
  exists g'. split; [exact Ht|]. unfold open_pages.
  assert (Hall : forall k bk', dict_get (_buttons g') k = Some bk' ->
            value bk' = if String.eqb k key then negb (value b) else false).
  { intros k bk' Ek'. destruct (In_dict_get (_buttons g) k) as [bk Ek].
    - rewrite <- Hk. eapply dict_get_Some_In; eassumption.
    - destruct (Hval k bk Ek) as (bk2 & Ek2 & _ & Hv). congruence. }
  destruct (value b) eqn:Ev.
  - rewrite filter_open_nil; [reflexivity | exact (syn_nodup Hs') |].
    intros k bk' Ek'. rewrite (Hall k bk' Ek'). now destruct (String.eqb k key).
  - destruct (Hval key b Eb) as (b' & Eb' & _ & Hv').
    rewrite String.eqb_refl in Hv'.
    apply (@filter_open_single _ key b'); try assumption.
    + exact (syn_nodup Hs').
    + intros k bk' Hne Ek'. rewrite (Hall k bk' Ek').
      destruct (String.eqb_spec k key); [contradiction | reflexivity].
Qed.




Lemma dict_get_In_pair {V : Type} (d : dict V) k v :
  dict_get d k = Some v -> In (k, v) d.
Proof.
  induction d as [|[k' v'] d IH]; simpl; [discriminate|].
  destruct (String.eqb_spec k k') as [->|_].
  - intros [= ->]. now left.
  - intros H. right. auto.
Qed.

Lemma In_open_pages g k b :
  dict_get (_buttons g) k = Some b -> value b = true -> In k (open_pages g).
Proof.
  intros Eb Ev. unfold open_pages, dict_keys.
  change k with (fst (k, b)). apply in_map. apply filter_In.
  split; [now apply dict_get_In_pair | exact Ev].
Qed.

(** X14. With no page open, clicking a toggle on and off again restores
    every button and every region. *)
Theorem toggle_twice_restores (g0 : ImageToggleGallery) (events : list string)
    (g : ImageToggleGallery) (name : string) :
  run_toggles events (refresh g0) = Ok g ->
  open_pages g = [] ->
  exists g', run_toggles [name; name] g = Ok g' /\
    _buttons g' = _buttons g /\ _outputs g' = _outputs g.
Proof.
  intros Hrun Hnone. pose proof (reached_synced _ _ Hrun) as Hs.
  assert (Hclosed : forall k bk, dict_get (_buttons g) k = Some bk -> value bk = false).
  { intros k bk Ek. destruct (value bk) eqn:Ev; [|reflexivity].
    pose proof (In_open_pages g k Ek Ev) as Hin. rewrite Hnone in Hin. destruct Hin. }
  destruct (dict_get (_buttons g) name) as [b|] eqn:Eb.
  2:{ exists g. simpl. unfold toggle_event. rewrite Eb. simpl. rewrite Eb. auto. }
  destruct (synced_toggle_summary name Hs Eb) as (g1 & Ht1 & Hs1 & Hi1 & Hk1 & Hv1).
  destruct (Hv1 name b Eb) as (b1 & Eb1 & _ & Hval1).
  destruct (synced_toggle_summary name Hs1 Eb1) as (g2 & Ht2 & Hs2 & Hi2 & Hk2 & Hv2).
  exists g2. simpl. rewrite Ht1. simpl. rewrite Ht2. simpl.
  split; [reflexivity|].
  apply synced_widgets_eq; try assumption; try congruence.
  intros k b2 bk E2 Ek.
  destruct (Hv1 k bk Ek) as (bk1 & Ek1 & Hs1' & _).
  destruct (Hv2 k bk1 Ek1) as (bk2 & Ek2 & Hs2' & Hval2).
  rewrite E2 in Ek2. injection Ek2 as <-.
  split; [|congruence].
  rewrite Hval2, (Hclosed k bk Ek).
  destruct (String.eqb k name); [|reflexivity].
  rewrite Hval1, String.eqb_refl, (Hclosed name b Eb). reflexivity.
Qed.

(** ** Host calls *)

Lemma close_all_calls keys : forall g g',
  wired g -> fold_left close_page keys (Ok g) = Ok g' ->
  host_calls g' = host_calls g ++ map clear_output keys.
Proof.
  induction keys as [|a keys IH]; intros g g' Hw Hf; cbn [fold_left map] in *.
  - injection Hf as <-. now rewrite app_nil_r.
  - pose proof (close_page_spec a Hw) as Hc.
    destruct (close_page (Ok g) a) as [g1|k].
    + assert (Hw1 : wired g1).
      { eapply wired_effect; [exact Hc | | exact Hw].
        intros k b _. unfold upd. now destruct (String.eqb k a). }
      rewrite (IH g1 g' Hw1 Hf), (eff_calls Hc), <- app_assoc. reflexivity.
    + rewrite (fold_body_error close_page (fun k0 a0 => eq_refl)) in Hf.
      discriminate.
Qed.

(** X15. Close-all, from any state reached by toggle events after a
    refresh, makes exactly one host call per page, a [clear_output] on
    its region, in the order of the pages, and renders nothing. *)
Theorem close_all_host_calls (g0 : ImageToggleGallery) (events : list string) :
  exists g g',
    run_toggles events (refresh g0) = Ok g /\
    _close_all g = Ok g' /\
    host_calls g' = host_calls g ++ map clear_output (dict_keys (image_sets g)).
Proof.
  destruct (synced_run_toggles events (synced_refresh g0)) as (g & Hrun & Hs).
  destruct (synced_close_all Hs) as (g' & calls & Hc & _).
  exists g, g'. split; [exact Hrun|]. split; [exact Hc|].
  exact (close_all_calls _ (syn_wired Hs) Hc).
Qed.


(** ** Events on widgets that are out of date *)

Lemma fold_ok_present
    (body : result ImageToggleGallery -> string -> result ImageToggleGallery)
    (sel : string -> bool) :
  (forall k a, body (KeyError k) a = KeyError k) ->
  (forall g a, sel a = false -> body (Ok g) a = Ok g) ->
  (forall g a g1, wired g -> sel a = true -> body (Ok g) a = Ok g1 ->
     In a (dict_keys (_buttons g)) /\ wired g1 /\
     dict_keys (_buttons g1) = dict_keys (_buttons g)) ->
  forall keys g g', wired g -> fold_left body keys (Ok g) = Ok g' ->
  forall k, In k keys -> sel k = true -> In k (dict_keys (_buttons g)).
Proof.
  intros Herr Hskip Hbody. induction keys as [|a keys IH];
    intros g g' Hw Hf k Hin Hs; cbn [fold_left] in Hf; [destruct Hin|].
  destruct (sel a) eqn:Ea.
  - destruct (body (Ok g) a) as [g1|k0] eqn:Eb.
    + destruct (Hbody g a g1 Hw Ea Eb) as (Ha & Hw1 & Hk1).
      destruct Hin as [<-|Hin]; [exact Ha|].
      rewrite <- Hk1. exact (IH g1 g' Hw1 Hf k Hin Hs).
    + rewrite (fold_body_error body Herr) in Hf. discriminate.
  - rewrite Hskip in Hf by assumption.
    destruct Hin as [<-|Hin]; [congruence|]. exact (IH g g' Hw Hf k Hin Hs).
Qed.

Lemma show_html_ok_present name g g' :
  wired g -> _show_html name g = Ok g' ->
  forall k, In k (dict_keys (image_sets g)) -> k <> name ->
            In k (dict_keys (_buttons g)).
Proof.
  intros Hw Hsh k Hin Hne. unfold _show_html, getitem in Hsh.
  destruct (dict_get (_outputs g) name) as [o|]; [|discriminate].
  cbn [bind] in Hsh. rewrite display_page_publish in Hsh.
  set (g2 := publish name (page_item (do_clear_output name g) name)
                     (item_call name (page_item (do_clear_output name g) name))
                     (do_clear_output name g)) in *.
  assert (Hw2 : wired g2).
  { unfold g2. eapply wired_effect; [apply effect_publish | reflexivity |].
    eapply wired_effect; [apply effect_clear_output | reflexivity | exact Hw]. }
  change (dict_keys (_buttons g)) with (dict_keys (_buttons g2)).
  apply (@fold_ok_present (close_other name) (not_page name)
           (fun _ _ => eq_refl)) with (keys := dict_keys (image_sets g2)) (g' := g');
    try assumption.
  - intros g0 a Ha. unfold close_other, not_page in *. cbn [bind].
    destruct (String.eqb a name); [reflexivity | discriminate].
  - intros g0 a g1 Hw0 Ha Eb.
    assert (Hane : a <> name).
    { unfold not_page in Ha. destruct (String.eqb_spec a name); [discriminate|assumption]. }
    pose proof (close_other_spec Hw0 Hane) as Hc. rewrite Eb in Hc.
    destruct Hc as (b & Eg & He). split; [eapply dict_get_Some_In; eassumption|].
    split; [|exact (eff_bkeys He)].
    eapply wired_effect; [exact He | | exact Hw0].
    intros k0 b0 _. unfold upd.
    destruct (String.eqb k0 a); [apply close_button_observer | reflexivity].
  - unfold not_page. destruct (String.eqb_spec k name); [contradiction | reflexivity].
Qed.

Lemma close_all_ok_present g g' :
  wired g -> _close_all g = Ok g' ->
  forall k, In k (dict_keys (image_sets g)) -> In k (dict_keys (_buttons g)).
Proof.
  intros Hw Hc k Hin.
  apply (@fold_ok_present close_page every_page (fun _ _ => eq_refl))
    with (keys := dict_keys (image_sets g)) (g' := g'); try assumption.
  - intros g0 a Ha. discriminate.
  - intros g0 a g1 Hw0 _ Eb.
    pose proof (close_page_spec a Hw0) as Hs. rewrite Eb in Hs.
    split; [|split; [|exact (eff_bkeys Hs)]].
    + unfold close_page, getitem in Eb. cbn [bind] in Eb.
      destruct (dict_get (_buttons g0) a) eqn:E; [|discriminate].
      eapply dict_get_Some_In; eassumption.
    + eapply wired_effect; [exact Hs | | exact Hw0].
      intros k0 b0 _. unfold upd. now destruct (String.eqb k0 a).
  - reflexivity.
Qed.

Lemma toggle_open_ok_show key g b g' :
  dict_get (_buttons g) key = Some b -> value b = false -> observer b = key ->
  toggle_event key g = Ok g' ->
  exists g1, _show_html key (store_value key true g) = Ok g1.
Proof.
  intros Eb Ev Eo Ht. unfold toggle_event in Ht. rewrite Eb, Ev, Eo in Ht.
  cbn [negb] in Ht. rewrite on_toggle_new_True in Ht.
  destruct (_show_html key (store_value key true g)) as [g1|k]; [eauto | discriminate].
Qed.

(** X17. A page added under a new name and no [refresh]: from then on
    switching any closed toggle on raises [KeyError] for the new name,
    and so does close-all, because both loops run over [image_sets] and
    index the widgets of the latest refresh. *)
Theorem events_after_add_set_raise (g0 : ImageToggleGallery) (events : list string)
    (g : ImageToggleGallery) (name html key : string) (b : ToggleButton) :
  run_toggles events (refresh g0) = Ok g ->
  ~ In name (dict_keys (image_sets g)) ->
  dict_get (_buttons g) key = Some b -> value b = false ->
  toggle_event key (add_set name html g) = KeyError name /\
  _close_all (add_set name html g) = KeyError name.
Proof.
  intros Hrun Hni Eb Ev. pose proof (reached_synced _ _ Hrun) as Hs.
  set (g1 := add_set name html g).
  assert (Hw : wired g1) by exact (syn_wired Hs).
  assert (Hkeys : dict_keys (image_sets g1) = dict_keys (image_sets g) ++ [name]).
  { unfold g1. simpl. rewrite dict_set_absent by assumption.
    unfold dict_keys. now rewrite map_app. }
  assert (Hnb : ~ In name (dict_keys (_buttons g1))).
  { intros H. apply Hni. now apply (syn_pages Hs). }
  assert (Hin1 : In name (dict_keys (image_sets g1))).
  { rewrite Hkeys. apply in_or_app. right. now left. }
  assert (Honly : forall k, In k (dict_keys (image_sets g1)) ->
                            ~ In k (dict_keys (_buttons g1)) -> k = name).
  { intros k Hk Hkb. rewrite Hkeys in Hk. apply in_app_or in Hk.
    destruct Hk as [Hk|[<-|[]]]; [|reflexivity].
    exfalso. apply Hkb. now apply (syn_pages Hs). }
  assert (Hkey : In key (dict_keys (image_sets g))).
  { apply (syn_pages Hs). eapply dict_get_Some_In; eassumption. }
  split.
  - pose proof (toggle_event_open_spec key Hw Eb Ev) as Ht.
    destruct (toggle_event key g1) as [g'|k] eqn:Et.
    + exfalso.
      destruct (@toggle_open_ok_show key g1 b g' Eb Ev (proj2 Hw _ _ Eb) Et) as [g2 Hsh].
      apply Hnb.
      assert (Hw' : wired (store_value key true g1)).
      { eapply wired_effect; [apply effect_store_value | | exact Hw].
        intros k b0 _. unfold upd. now destruct (String.eqb k key). }
      pose proof (@show_html_ok_present key (store_value key true g1) g2 Hw' Hsh name Hin1) as Hp.
      simpl in Hp. rewrite dict_keys_mutate in Hp. apply Hp.
      intros ->. contradiction.
    + f_equal. destruct Ht as (Hk & _ & Hkb). now apply Honly.
  - pose proof (close_all_spec Hw) as Hc.
    destruct (_close_all g1) as [g'|k] eqn:Ec.
    + exfalso. apply Hnb. exact (@close_all_ok_present g1 g' Hw Ec name Hin1).
    + f_equal. destruct Hc as [Hk Hkb]. now apply Honly.
Qed.

(** X18. A page removed and no [refresh]: its toggle is still shown, and
    switching it on does not raise.  The [KeyError] for its name comes
    up in the body of the [with] block, so its traceback is shown in the
    page's region and the handler goes on: it returns with that toggle
    on, labelled "Hide <name>", and no other page open. *)
Theorem toggle_removed_page_shows_error (g0 : ImageToggleGallery)
    (events : list string) (g : ImageToggleGallery) (name : string)
    (b : ToggleButton) :
  run_toggles events (refresh g0) = Ok g ->
  NoDup (dict_keys (image_sets g)) ->
  dict_get (_buttons g) name = Some b -> value b = false ->
  exists g' calls,
    toggle_event name (remove_set name g) = Ok g' /\
    dict_get (_outputs g') name =
      Some (mkOutput [traceback_output (KeyError_in_body name)]) /\
    dict_get (_buttons g') name =
      Some (mkToggleButton ("Hide " ++ name) true (toggle_style b) (observer b)) /\
    host_calls g' =
      host_calls g ++
      clear_output name :: showtraceback name (KeyError_in_body name) :: calls /\
    open_pages g' = [name].
Proof.
  intros Hrun Hnd Eb Ev. pose proof (reached_synced _ _ Hrun) as Hs.
  set (g1 := remove_set name g).
  assert (Hw : wired g1) by exact (syn_wired Hs).
  assert (Hkeys : dict_keys (image_sets g1) =
                  remove string_dec name (dict_keys (image_sets g))).
  { unfold g1. simpl. now apply dict_keys_pop. }
  assert (Hitem : page_item g1 name = traceback_output (KeyError_in_body name)).
  { unfold page_item, g1. simpl. now rewrite dict_get_pop_same. }
  pose proof (toggle_event_open_spec name Hw Eb Ev) as Ht.
  destruct (toggle_event name g1) as [g'|k].
  2:{ exfalso. destruct Ht as (Hk & _ & Hkb). apply Hkb.
      rewrite Hkeys in Hk. apply in_remove in Hk. apply (syn_pages Hs). tauto. }
  destruct Ht as (calls & He & _). rewrite Hitem in He.
  exists g', calls. split; [reflexivity|].
  assert (Eb' : dict_get (_buttons g') name =
                Some (mkToggleButton ("Hide " ++ name) true (toggle_style b) (observer b))).
  { rewrite (eff_buttons He). change (_buttons g1) with (_buttons g).
    rewrite Eb. cbn [option_map]. unfold open_button. now rewrite String.eqb_refl. }
  split; [|split; [exact Eb'|split]].
  - destruct (In_dict_get (_outputs g) name) as [o Eo].
    { rewrite (proj1 (syn_wired Hs)). eapply dict_get_Some_In; eassumption. }
    rewrite (eff_outputs He). change (_outputs g1) with (_outputs g).
    rewrite Eo. cbn [option_map]. unfold show_output. now rewrite String.eqb_refl.
  - exact (eff_calls He).
  - unfold open_pages.
    apply (@filter_open_single _ name _ ltac:(rewrite (eff_bkeys He); exact (syn_nodup Hs)) Eb');
      [reflexivity|].
    intros k bk Hne. rewrite (eff_buttons He). change (_buttons g1) with (_buttons g).
    destruct (dict_get (_buttons g) k) as [bk0|] eqn:Ek; cbn [option_map]; [|discriminate].
    intros [= <-]. unfold open_button.
    destruct (String.eqb_spec k name); [contradiction|].
    assert (Hm : mem k (dict_keys (dict_pop (image_sets g) name)) = true).
    { apply mem_In. rewrite dict_keys_pop by assumption.
      apply in_in_remove; [assumption|].
      apply (syn_pages Hs). eapply dict_get_Some_In; eassumption. }
    unfold g1, remove_set, with_image_sets. cbn [image_sets].
    rewrite Hm. apply close_button_value.
Qed.

(** X19. Exclusivity needs the refresh: when the open page is removed
    from the page set and [refresh] is not called, switching another
    page on returns and leaves both toggles on, since the loop that
    closes the others runs over [image_sets]. *)
Theorem remove_open_page_keeps_it_open (g0 : ImageToggleGallery)
    (events : list string) (g : ImageToggleGallery) (p q : string)
    (bp bq : ToggleButton) :
  run_toggles events (refresh g0) = Ok g ->
  NoDup (dict_keys (image_sets g)) ->
  dict_get (_buttons g) p = Some bp -> value bp = true ->
  dict_get (_buttons g) q = Some bq -> q <> p ->
  exists g', toggle_event q (remove_set p g) = Ok g' /\
    In p (open_pages g') /\ In q (open_pages g') /\
    dict_get (_buttons g') p = Some bp.
Proof.
  intros Hrun Hnd Ep Evp Eq Hne. pose proof (reached_synced _ _ Hrun) as Hs.
  assert (Evq : value bq = false).
  { destruct (value bq) eqn:E; [|reflexivity].
    exfalso. apply Hne. exact (syn_one Hs _ _ Eq Ep E Evp). }
  set (g1 := remove_set p g).
  assert (Hw : wired g1) by exact (syn_wired Hs).
  assert (Hkeys : dict_keys (image_sets g1) = remove string_dec p (dict_keys (image_sets g))).
  { unfold g1. simpl. now apply dict_keys_pop. }
  pose proof (toggle_event_open_spec q Hw Eq Evq) as Ht.
  destruct (toggle_event q g1) as [g'|k].
  2:{ exfalso. destruct Ht as (Hk & _ & Hkb).
      apply Hkb. rewrite Hkeys in Hk. apply in_remove in Hk.
      apply (syn_pages Hs). tauto. }
  destruct Ht as (calls & He & _).
  assert (Ep' : dict_get (_buttons g') p = Some bp).
  { rewrite (eff_buttons He). change (_buttons g1) with (_buttons g).
    rewrite Ep. cbn [option_map]. unfold open_button.
    destruct (String.eqb_spec p q) as [E|_]; [congruence|].
    destruct (mem p (dict_keys (image_sets g1))) eqn:Hm; [|reflexivity].
    exfalso. apply mem_In in Hm. rewrite Hkeys in Hm. exact (remove_In _ _ _ Hm). }
  exists g'. split; [reflexivity|]. split; [|split; [|exact Ep']].
  - exact (In_open_pages g' p Ep' Evp).
  - apply (@In_open_pages g' q (relabel ("Hide " ++ q) (switch true bq))); [|reflexivity].
    rewrite (eff_buttons He). change (_buttons g1) with (_buttons g).
    rewrite Eq. cbn [option_map]. unfold open_button. now rewrite String.eqb_refl.
Qed.


End Notebook.

(** * Instances on the two-page gallery, in a session without files and
      network *)

#[global] Existing Instance offline_host.



Lemma toggle_close_effect_witness :
  wired (add_set "C" "<img c>" sample_A_open) /\
  dict_get (_buttons (add_set "C" "<img c>" sample_A_open)) "A" =
    Some (mkToggleButton "Hide A" true "" "A") /\
  exists g',
    toggle_event "A" (add_set "C" "<img c>" sample_A_open) = Ok g' /\
    dict_get (_outputs g') "A" = Some (mkOutput []) /\
    dict_get (_buttons g') "A" = Some (mkToggleButton "Show A" false "" "A") /\
    host_calls g' =
      host_calls (add_set "C" "<img c>" sample_A_open) ++ [clear_output "A"] /\
    image_sets g' = image_sets (add_set "C" "<img c>" sample_A_open) /\
    container g' = container (add_set "C" "<img c>" sample_A_open) /\
    forall other, other <> "A" ->
      dict_get (_buttons g') other =
        dict_get (_buttons (add_set "C" "<img c>" sample_A_open)) other /\
      dict_get (_outputs g') other =
        dict_get (_outputs (add_set "C" "<img c>" sample_A_open)) other.
Proof.
  assert (Hw : wired (add_set "C" "<img c>" sample_A_open)).
  { apply (@wired_run offline_host [Toggle "A"; AddSet "C" "<img c>"]
             (init [("A", "<img a>"); ("B", "<img b>")] true "" None)).
    - exact (syn_wired (synced_refresh _)).
    - vm_compute. reflexivity. }
  split; [exact Hw|]. split; [vm_compute; reflexivity|].
  exact (@toggle_close_effect offline_host
           (add_set "C" "<img c>" sample_A_open) "A"
           (mkToggleButton "Hide A" true "" "A") Hw eq_refl eq_refl).
Defined.



Lemma rename_collision_witness :
  image_sets (init [("A", "x"); ("B", "y")] false "" None) = [("A", "x"); ("B", "y")] /\
  image_sets (rename_set "A" "B" (init [("A", "x"); ("B", "y")] false "" None))
    = [("B", "x")] /\
  _buttons (rename_set "A" "B" (init [("A", "x"); ("B", "y")] false "" None))
    = _buttons (init [("A", "x"); ("B", "y")] false "" None) /\
  _outputs (rename_set "A" "B" (init [("A", "x"); ("B", "y")] false "" None))
    = _outputs (init [("A", "x"); ("B", "y")] false "" None).
Proof.
  split; [reflexivity|].
  apply (@rename_collision (init [("A", "x"); ("B", "y")] false "" None)).
  reflexivity.
Defined.

Lemma absent_name_noop_witness :
  ~ In "Z" (dict_keys (image_sets sample_A_open)) /\
  remove_set "Z" sample_A_open = sample_A_open /\
  forall new, rename_set "Z" new sample_A_open = sample_A_open.
Proof.
  assert (H : ~ In "Z" (dict_keys (image_sets sample_A_open))).
  { vm_compute. intros [H|[H|[]]]; discriminate. }
  split; [exact H|]. exact (@absent_name_noop sample_A_open "Z" H).
Defined.

Lemma rename_set_position_witness :
  NoDup (dict_keys (image_sets sample)) /\
  dict_get (image_sets sample) "A" = Some "<img a>" /\
  dict_keys (image_sets (rename_set "A" "A" sample)) = ["B"; "A"] /\
  dict_get (image_sets (rename_set "A" "A" sample)) "A" = Some "<img a>" /\
  displayed_pages (refresh (rename_set "A" "A" sample)) =
    dict_keys (image_sets (rename_set "A" "A" sample)).
Proof.
  assert (Hnd : NoDup (dict_keys (image_sets sample))).
  { vm_compute. repeat constructor; simpl; intuition discriminate. }
  split; [exact Hnd|]. split; [reflexivity|].
  exact (@rename_set_position sample "A" "A" "<img a>" Hnd eq_refl).
Defined.

Lemma make_img_html_app_witness :
  ["a.png"] <> [] /\ ["b.png"; "c.png"] <> [] /\
  make_img_html (["a.png"] ++ ["b.png"; "c.png"]) default_width =
  (make_img_html ["a.png"] default_width ++ newline ++
   make_img_html ["b.png"; "c.png"] default_width)%string.
Proof.
  assert (H1 : ["a.png"] <> []) by discriminate.
  assert (H2 : ["b.png"; "c.png"] <> []) by discriminate.
  split; [exact H1|]. split; [exact H2|].
  exact (@make_img_html_app ["a.png"] ["b.png"; "c.png"] default_width H1 H2).
Defined.

Lemma remove_set_effect_witness :
  NoDup (dict_keys (image_sets sample)) /\
  (forall k, dict_get (image_sets (remove_set "A" sample)) k =
             if String.eqb k "A" then None else dict_get (image_sets sample) k) /\
  dict_keys (image_sets (remove_set "A" sample)) =
    remove string_dec "A" (dict_keys (image_sets sample)).
Proof.
  assert (Hnd : NoDup (dict_keys (image_sets sample))).
  { vm_compute. repeat constructor; simpl; intuition discriminate. }
  split; [exact Hnd|]. exact (@remove_set_effect sample "A" Hnd).
Defined.

Lemma remove_add_set_roundtrip_witness :
  ~ In "Z" (dict_keys (image_sets sample_A_open)) /\
  remove_set "Z" (add_set "Z" "<img z>" sample_A_open) = sample_A_open.
Proof.
  assert (H : ~ In "Z" (dict_keys (image_sets sample_A_open))).
  { vm_compute. intros [H|[H|[]]]; discriminate. }
  split; [exact H|]. exact (@remove_add_set_roundtrip sample_A_open "Z" "<img z>" H).
Defined.

Lemma rename_set_lookup_witness :
  NoDup (dict_keys (image_sets sample)) /\
  dict_get (image_sets sample) "A" = Some "<img a>" /\
  forall k, dict_get (image_sets (rename_set "A" "B" sample)) k =
            if String.eqb k "B" then Some "<img a>"
            else if String.eqb k "A" then None
            else dict_get (image_sets sample) k.
Proof.
  assert (Hnd : NoDup (dict_keys (image_sets sample))).
  { vm_compute. repeat constructor; simpl; intuition discriminate. }
  split; [exact Hnd|]. split; [reflexivity|].
  exact (@rename_set_lookup sample "A" "B" "<img a>" Hnd eq_refl).
Defined.

Lemma rename_set_back_witness :
  NoDup (dict_keys (image_sets sample)) /\
  dict_get (image_sets sample) "A" = Some "<img a>" /\
  ~ In "Z" (dict_keys (image_sets sample)) /\
  rename_set "Z" "A" (rename_set "A" "Z" sample) = rename_set "A" "A" sample /\
  image_sets (rename_set "A" "A" sample) =
    dict_pop (image_sets sample) "A" ++ [("A", "<img a>")].
Proof.
  assert (Hnd : NoDup (dict_keys (image_sets sample))).
  { vm_compute. repeat constructor; simpl; intuition discriminate. }
  assert (Hni : ~ In "Z" (dict_keys (image_sets sample))).
  { vm_compute. intros [H|[H|[]]]; discriminate. }
  split; [exact Hnd|]. split; [reflexivity|]. split; [exact Hni|].
  exact (@rename_set_back sample "A" "Z" "<img a>" Hnd eq_refl Hni).
Defined.

Lemma mutators_leave_display_witness :
  forallb is_mutator
    [AddSet "C" "<img c>"; RenameSet "B" "D"; RemoveSet "A"; ReplaceSet "D" "<img d>"]
    = true /\
  exists g',
    run [AddSet "C" "<img c>"; RenameSet "B" "D"; RemoveSet "A"; ReplaceSet "D" "<img d>"]
        sample_A_open = Ok g' /\
    _buttons g' = _buttons sample_A_open /\ _outputs g' = _outputs sample_A_open /\
    container g' = container sample_A_open /\
    host_calls g' = host_calls sample_A_open /\
    displayed_pages g' = displayed_pages sample_A_open /\
    open_pages g' = open_pages sample_A_open.
Proof.
  split; [reflexivity|].
  exact (@mutators_leave_display offline_host
           [AddSet "C" "<img c>"; RenameSet "B" "D"; RemoveSet "A";
            ReplaceSet "D" "<img d>"] sample_A_open eq_refl).
Defined.

Lemma refresh_widgets_witness :
  validate_style
    (button_style (mkGallery [("A", "<img a>")] false "PRIMARY" None [] [] [] []))
    = Some "primary" /\
  dict_get
    (_buttons (refresh (mkGallery [("A", "<img a>")] false "PRIMARY" None [] [] [] [])))
    "A" = Some (mkToggleButton "Show A" false "primary" "A") /\
  dict_get
    (_outputs (refresh (mkGallery [("A", "<img a>")] false "PRIMARY" None [] [] [] [])))
    "A" = Some (mkOutput []) /\
  image_sets (refresh (mkGallery [("A", "<img a>")] false "PRIMARY" None [] [] [] []))
    = image_sets (mkGallery [("A", "<img a>")] false "PRIMARY" None [] [] [] []) /\
  host_calls (refresh (mkGallery [("A", "<img a>")] false "PRIMARY" None [] [] [] []))
    = host_calls (mkGallery [("A", "<img a>")] false "PRIMARY" None [] [] [] []).
Proof.
  assert (Hv : validate_style
                 (button_style
                    (mkGallery [("A", "<img a>")] false "PRIMARY" None [] [] [] []))
               = Some "primary") by (vm_compute; reflexivity).
  split; [exact Hv|].
  exact (@refresh_widgets
           (mkGallery [("A", "<img a>")] false "PRIMARY" None [] [] [] [])
           "A" "primary" Hv).
Defined.

Lemma toggle_event_open_pages_witness :
  run_toggles ["A"] sample = Ok sample_A_open /\
  dict_get (_buttons sample_A_open) "B" = Some (fresh_button "" "B") /\
  exists g', toggle_event "B" sample_A_open = Ok g' /\
    open_pages g' = if value (fresh_button "" "B") then [] else ["B"].
Proof.
  split; [vm_compute; reflexivity|]. split; [vm_compute; reflexivity|].
  apply (@toggle_event_open_pages offline_host
           (mkGallery [("A", "<img a>"); ("B", "<img b>")] true "" None [] [] [] [])
           ["A"] sample_A_open "B" (fresh_button "" "B")); vm_compute; reflexivity.
Defined.


Lemma toggle_twice_restores_witness :
  run_toggles [] sample = Ok sample /\
  open_pages sample = [] /\
  exists g', run_toggles ["A"; "A"] sample = Ok g' /\
    _buttons g' = _buttons sample /\ _outputs g' = _outputs sample.
Proof.
  split; [reflexivity|]. split; [vm_compute; reflexivity|].
  apply (@toggle_twice_restores offline_host
           (mkGallery [("A", "<img a>"); ("B", "<img b>")] true "" None [] [] [] [])
           [] sample "A"); vm_compute; reflexivity.
Defined.


Lemma events_after_add_set_raise_witness :
  run_toggles ["A"] sample = Ok sample_A_open /\
  ~ In "C" (dict_keys (image_sets sample_A_open)) /\
  dict_get (_buttons sample_A_open) "B" = Some (fresh_button "" "B") /\
  toggle_event "B" (add_set "C" "<img c>" sample_A_open) = KeyError "C" /\
  _close_all (add_set "C" "<img c>" sample_A_open) = KeyError "C".
Proof.
  assert (Hni : ~ In "C" (dict_keys (image_sets sample_A_open))).
  { vm_compute. intros [H|[H|[]]]; discriminate. }
  split; [vm_compute; reflexivity|]. split; [exact Hni|].
  split; [vm_compute; reflexivity|].
  refine (@events_after_add_set_raise offline_host
            (mkGallery [("A", "<img a>"); ("B", "<img b>")] true "" None [] [] [] [])
            ["A"] sample_A_open "C" "<img c>" "B" (fresh_button "" "B") _ Hni _ _);
    vm_compute; reflexivity.
Defined.

Lemma toggle_removed_page_shows_error_witness :
  run_toggles ["A"] sample = Ok sample_A_open /\
  NoDup (dict_keys (image_sets sample_A_open)) /\
  dict_get (_buttons sample_A_open) "B" = Some (fresh_button "" "B") /\
  exists g' calls,
    toggle_event "B" (remove_set "B" sample_A_open) = Ok g' /\
    dict_get (_outputs g') "B" =
      Some (mkOutput [traceback_output (KeyError_in_body "B")]) /\
    dict_get (_buttons g') "B" = Some (mkToggleButton "Hide B" true "" "B") /\
    host_calls g' =
      host_calls sample_A_open ++
      clear_output "B" :: showtraceback "B" (KeyError_in_body "B") :: calls /\
    open_pages g' = ["B"].
Proof.
  assert (Hnd : NoDup (dict_keys (image_sets sample_A_open))).
  { vm_compute. repeat constructor; simpl; intuition discriminate. }
  split; [vm_compute; reflexivity|]. split; [exact Hnd|].
  split; [vm_compute; reflexivity|].
  refine (@toggle_removed_page_shows_error offline_host
            (mkGallery [("A", "<img a>"); ("B", "<img b>")] true "" None [] [] [] [])
            ["A"] sample_A_open "B" (fresh_button "" "B") _ Hnd _ _);
    vm_compute; reflexivity.
Defined.

Lemma remove_open_page_keeps_it_open_witness :
  run_toggles ["A"] sample = Ok sample_A_open /\
  NoDup (dict_keys (image_sets sample_A_open)) /\
  dict_get (_buttons sample_A_open) "A" = Some (mkToggleButton "Hide A" true "" "A") /\
  dict_get (_buttons sample_A_open) "B" = Some (fresh_button "" "B") /\
  "B" <> "A" /\
  exists g', toggle_event "B" (remove_set "A" sample_A_open) = Ok g' /\
    In "A" (open_pages g') /\ In "B" (open_pages g') /\
    dict_get (_buttons g') "A" = Some (mkToggleButton "Hide A" true "" "A").
Proof.
  assert (Hnd : NoDup (dict_keys (image_sets sample_A_open))).
  { vm_compute. repeat constructor; simpl; intuition discriminate. }
  assert (Hne : "B" <> "A") by discriminate.
  split; [vm_compute; reflexivity|]. split; [exact Hnd|].
  split; [vm_compute; reflexivity|]. split; [vm_compute; reflexivity|].
  split; [exact Hne|].
  refine (@remove_open_page_keeps_it_open offline_host
            (mkGallery [("A", "<img a>"); ("B", "<img b>")] true "" None [] [] [] [])
            ["A"] sample_A_open "A" "B"
            (mkToggleButton "Hide A" true "" "A") (fresh_button "" "B")
            _ Hnd _ _ _ Hne); vm_compute; reflexivity.
Defined.

